(** * Pharmacy inventory system: the transaction engine of [app.py]

    A shallow embedding of the class [PharmacyInventorySystem] of src/app.py
    (src/main.py is the earlier command-line variant of the same class): the
    three SQLite tables, the statements the methods execute on them, and
    the properties of sales, stock and reports that follow.

    Representation choices.
    - A table is the list of its rows in rowid order, the order in which
      SQLite scans a rowid table; [INSERT] appends a row whose
      [INTEGER PRIMARY KEY] is one more than the largest in use.  The
      FOREIGN KEY clauses are not enforced: the connection never issues
      [PRAGMA foreign_keys = ON].
    - Python [int]s and SQLite [INTEGER]s are [Z].  SQLite's INTEGER is a
      signed 64-bit word: [sqlite3] raises [OverflowError] when it is to
      bind an [int] that does not fit one, and SQLite carries out on REALs
      a subtraction whose result does not.  The definitions compute in [Z]
      and are the code where every integer bound or computed fits 64 bits;
      a statement whose truth depends on it has the range ([int64],
      [sale_in_range], [lot_in_range], [run_in_range]) among its hypotheses.
    - A calendar date is its day number (days since 1970-01-01).  Python's
      [date] adapter and SQLite's [CURRENT_DATE] and [date()] all produce
      the text [YYYY-MM-DD], whose text order is the order of the day
      numbers, so text comparison and [ORDER BY] on a date column are
      comparison of day numbers.  Python's [date] covers the years 0001 to
      9999 and SQLite's date functions the years 0000 to 9999; beyond
      9999-12-31 [date('now', '+N days')] is NULL, and [date_now_plus] is
      that date while today + N is within [Calendar.last_day].
    - A time of day is the text [HH:MM:SS] that [strftime] produces, ordered
      as text.
    - Prices are [REAL]s.  Their arithmetic is not interpreted: the model is
      parametrised by the price type and the two operations the code uses
      on it.  A NaN is bound as NULL, which the NOT NULL columns refuse
      ([IntegrityError]); [is_nan] tells which prices are, and a statement
      that a row is written says that its REALs are not.
    - The clock is an explicit argument of every operation that reads it. *)

From Stdlib Require Import ZArith List Bool String Ascii Lia QArith.
From Stdlib Require Import Sorting.Sorted Sorting.Permutation.
Import ListNotations.
Local Open Scope string_scope.
Local Open Scope Z_scope.

Set Implicit Arguments.

(* ================================================================= *)
(** ** Calendar *)

Module Calendar.

(** Day number of the civil date [y]-[m]-[d] in the proleptic Gregorian
    calendar, counted from 1970-01-01. *)
Definition day_number (y m d : Z) : Z :=
  let y' := if m <=? 2 then y - 1 else y in
  let era := y' / 400 in
  let yoe := y' - era * 400 in
  let mp := if 2 <? m then m - 3 else m + 9 in
  let doy := (153 * mp + 2) / 5 + d - 1 in
  let doe := yoe * 365 + yoe / 4 - yoe / 100 + doy in
  era * 146097 + doe - 719468.

(** The civil date (year, month, day) of a day number. *)
Definition civil (n : Z) : Z * Z * Z :=
  let z := n + 719468 in
  let era := z / 146097 in
  let doe := z - era * 146097 in
  let yoe := (doe - doe / 1460 + doe / 36524 - doe / 146096) / 365 in
  let y := yoe + era * 400 in
  let doy := doe - (365 * yoe + yoe / 4 - yoe / 100) in
  let mp := (5 * doy + 2) / 153 in
  let d := doy - (153 * mp + 2) / 5 + 1 in
  let m := if mp <? 10 then mp + 3 else mp - 9 in
  (if m <=? 2 then y + 1 else y, m, d).

Definition is_leap (y : Z) : bool :=
  (y mod 4 =? 0) && (negb (y mod 100 =? 0) || (y mod 400 =? 0)).

Definition days_in_month (y m : Z) : Z :=
  if m =? 2 then (if is_leap y then 29 else 28)
  else if (m =? 4) || (m =? 6) || (m =? 9) || (m =? 11) then 30
  else 31.

(** What [datetime.date(y, m, d)] accepts: MINYEAR = 1, MAXYEAR = 9999. *)
Definition valid_date (y m d : Z) : bool :=
  (1 <=? y) && (y <=? 9999) && (1 <=? m) && (m <=? 12) &&
  (1 <=? d) && (d <=? days_in_month y m).

(** SQLite's ['start of month'] modifier: same year and month, day 1. *)
Definition start_of_month (n : Z) : Z :=
  let '(y, m, _) := civil n in day_number y m 1.

(** The days SQLite's date functions cover: 0000-01-01 to 9999-12-31. *)
Definition first_day : Z := day_number 0 1 1.
Definition last_day : Z := day_number 9999 12 31.

End Calendar.

(* ================================================================= *)
(** ** [datetime.strptime(s, '%Y-%m-%d').date()]

    The format is matched as the regular expression Python compiles it to,
    on ASCII text; the fields found must then name a day of the calendar.
    Python's [\d] also matches the decimal digits of other scripts, which
    take more than one byte each: on a text with such a byte the code may
    find a date where [strptime] below finds none. *)

Module Strptime.

(** A text of ASCII characters only. *)
Fixpoint ascii_text (s : string) : bool :=
  match s with
  | EmptyString => true
  | String c s' => (nat_of_ascii c <? 128)%nat && ascii_text s'
  end.

Definition is_digit (c : ascii) : bool :=
  ((48 <=? nat_of_ascii c) && (nat_of_ascii c <=? 57))%nat.

Definition digit (c : ascii) : Z := Z.of_nat (nat_of_ascii c) - 48.

Definition between (lo hi : Z) (c : ascii) : bool :=
  is_digit c && (lo <=? digit c) && (digit c <=? hi).

(** [%Y] is the regular expression [\d\d\d\d]. *)
Definition year (s : string) : option (Z * string) :=
  match s with
  | String a (String b (String c (String d rest))) =>
      if is_digit a && is_digit b && is_digit c && is_digit d
      then Some (1000 * digit a + 100 * digit b + 10 * digit c + digit d, rest)
      else None
  | _ => None
  end.

(** [%m] is [1[0-2]|0[1-9]|[1-9]], alternatives tried in this order. *)
Definition month (s : string) : option (Z * string) :=
  match s with
  | String a (String b rest) =>
      if (digit a =? 1) && is_digit a && between 0 2 b then Some (10 + digit b, rest)
      else if (digit a =? 0) && is_digit a && between 1 9 b then Some (digit b, rest)
      else if between 1 9 a then Some (digit a, String b rest)
      else None
  | String a EmptyString =>
      if between 1 9 a then Some (digit a, EmptyString) else None
  | EmptyString => None
  end.

(** [%d] is [3[0-1]|[1-2]\d|0[1-9]|[1-9]| [1-9]]. *)
Definition day (s : string) : option (Z * string) :=
  match s with
  | String a (String b rest) =>
      if (digit a =? 3) && is_digit a && between 0 1 b then Some (30 + digit b, rest)
      else if between 1 2 a && is_digit b then Some (10 * digit a + digit b, rest)
      else if (digit a =? 0) && is_digit a && between 1 9 b then Some (digit b, rest)
      else if between 1 9 a then Some (digit a, String b rest)
      else if Ascii.eqb a " " && between 1 9 b then Some (digit b, rest)
      else None
  | String a EmptyString =>
      if between 1 9 a then Some (digit a, EmptyString) else None
  | EmptyString => None
  end.

Definition dash (s : string) : option string :=
  match s with
  | String c rest => if Ascii.eqb c "-" then Some rest else None
  | EmptyString => None
  end.

(** The three fields matched by the format, when the whole string is
    consumed ("unconverted data remains" otherwise). *)
Definition fields (s : string) : option (Z * Z * Z) :=
  match year s with
  | Some (y, s1) =>
      match dash s1 with
      | Some s2 =>
          match month s2 with
          | Some (m, s3) =>
              match dash s3 with
              | Some s4 =>
                  match day s4 with
                  | Some (d, EmptyString) => Some (y, m, d)
                  | _ => None
                  end
              | None => None
              end
          | None => None
          end
      | None => None
      end
  | None => None
  end.

(** [None] stands for the [ValueError] that [strptime] (no match) or the
    [date] constructor (no such day) raises; [Some n] is the date. *)
Definition strptime (s : string) : option Z :=
  match fields s with
  | Some (y, m, d) =>
      if Calendar.valid_date y m d then Some (Calendar.day_number y m d) else None
  | None => None
  end.

End Strptime.

(* ================================================================= *)
(** ** SQL and Python helpers *)

(** A Python call either returns or raises. *)
Inductive exn : Set := ValueError | KeyError | TypeError.

Inductive outcome (A : Type) : Type :=
| Returned (a : A)
| Raised (e : exn).
Arguments Raised {A} e.

(** A keyword argument left out takes its default. *)
Definition with_default {A : Type} (default : A) (arg : option A) : A :=
  match arg with Some a => a | None => default end.

(** The rowid SQLite gives a row inserted without one: 1 in an empty
    table, otherwise one more than the largest rowid in use. *)
Definition next_rowid (ids : list Z) : Z :=
  match ids with
  | [] => 1
  | i :: rest => fold_right Z.max i rest + 1
  end.

(** [ORDER BY]: a stable insertion sort of the scanned rows under [le]. *)
Section OrderBy.
Variable A : Type.
Variable le : A -> A -> bool.

Fixpoint insert_row (x : A) (l : list A) : list A :=
  match l with
  | [] => [x]
  | y :: l' => if le x y then x :: l else y :: insert_row x l'
  end.

Definition order_by (l : list A) : list A := fold_right insert_row [] l.
End OrderBy.

(** [FROM l JOIN r ON on]: every pair of rows that satisfies [on]. *)
Definition join {A B : Type} (on : A -> B -> bool) (l : list A) (r : list B)
  : list (A * B) :=
  flat_map (fun a => map (fun b => (a, b)) (filter (on a) r)) l.

(** [x BETWEEN lo AND hi] where either bound may be NULL: a NULL result
    does not select the row. *)
Definition sql_between (x : Z) (lo hi : option Z) : bool :=
  match lo, hi with
  | Some a, Some b => (a <=? x) && (x <=? b)
  | _, _ => false
  end.

(** [CAST(x AS INTEGER)] of the quotient [num / den] ([den > 0]): the
    integer part, rounding toward zero. *)
Definition cast_integer (num den : Z) : Z := Z.quot num den.

(** The clock: what [date('now')], [julianday('now')] and
    [datetime.now().strftime('%H:%M:%S')] read. *)
Record Clock : Set := {
  today : Z;              (* the UTC date: [date('now')], [CURRENT_DATE] *)
  ms_of_day : Z;          (* milliseconds elapsed since that date began, 0 .. 86399999 *)
  local_time : string     (* local time of day as [HH:MM:SS] *)
}.

Definition ms_per_day : Z := 86400000.

(** [date('now', '+N days')] for the text [f'+{days} days']: a negative
    [days] prints as [+-N days], which is not a modifier, and the result
    is NULL.  The sum is the date SQLite computes where it is no later
    than 9999-12-31 ([Calendar.last_day]); past that day SQLite gives
    NULL. *)
Definition date_now_plus (clk : Clock) (days : Z) : option Z :=
  if days <? 0 then None else Some (today clk + days).

(** What an SQLite INTEGER holds and [sqlite3] binds: a signed 64-bit
    word. *)
Definition int64 (n : Z) : Prop :=
  -9223372036854775808 <= n <= 9223372036854775807.

Definition int64b (n : Z) : bool :=
  (-9223372036854775808 <=? n) && (n <=? 9223372036854775807).

(** A JSON object, as the dict [json.load] builds: keys to values, a value
    being text or [null]. *)
Definition json_object : Set := list (string * option string).

Fixpoint dict_lookup (k : string) (o : json_object) : option (option string) :=
  match o with
  | [] => None
  | (k', v) :: o' => if String.eqb k k' then Some v else dict_lookup k o'
  end.

(** [med.get(k)]: [None] when the key is absent. *)
Definition dict_get (o : json_object) (k : string) : option string :=
  match dict_lookup k o with Some v => v | None => None end.

(* ================================================================= *)
(** ** The tables of [create_tables] *)

(** What the code multiplies and subtracts prices with:
    [quantity * selling_price] and [sale_price - purchase_price]. *)
Class PriceOps (R : Type) : Type := {
  mul : Z -> R -> R;
  sub : R -> R -> R
}.

(** The REALs that are not numbers.  [sqlite3] binds a NaN as NULL, and
    the REAL columns of [inventory] and [sales] are NOT NULL. *)
Class RealValue (R : Type) : Type := {
  is_nan : R -> bool
}.

Module Medicines.
(** [id INTEGER PRIMARY KEY, name TEXT NOT NULL] and five nullable text
    columns.  No column is declared UNIQUE. *)
Record row : Set := mk {
  id : Z;
  name : string;
  generic_name : option string;
  type : option string;
  power : option string;
  company : option string;
  price : option string
}.
End Medicines.

Module Inventory.
Record row (R : Type) : Type := mk {
  id : Z;
  medicine_id : Z;
  quantity : Z;
  expiry_date : Z;
  purchase_price : R;
  selling_price : R;
  purchase_date : Z
}.

Definition set_quantity {R} (q : Z) (i : row R) : row R :=
  mk (id i) (medicine_id i) q (expiry_date i)
     (purchase_price i) (selling_price i) (purchase_date i).
End Inventory.

Module Sales.
Record row (R : Type) : Type := mk {
  id : Z;
  inventory_id : Z;
  quantity : Z;
  sale_price : R;
  customer_name : string;
  sale_date : Z;
  sale_time : string;
  total_amount : R
}.
End Sales.

(** The columns of [sales] once [create_tables] has run: those of its
    CREATE TABLE, or an older table's with the three missing ones added by
    ALTER TABLE. *)
Definition sales_columns : list string :=
  ["id"; "inventory_id"; "quantity"; "sale_price"; "customer_name";
   "sale_date"; "sale_time"; "total_amount"].

Record DB (R : Type) : Type := {
  medicines : list Medicines.row;
  inventory : list (Inventory.row R);
  sales : list (Sales.row R)
}.

Definition empty_db (R : Type) : DB R :=
  {| medicines := []; inventory := []; sales := [] |}.

(* ================================================================= *)
(** ** Results of the queries *)

Inductive status : Set := LOW | NEAR_EXPIRY | OK.

(** A row of [get_inventory]. *)
Record inventory_item (R : Type) : Type := {
  item_id : Z;
  item_name : string;
  item_quantity : Z;
  item_expiry_date : Z;
  item_purchase_price : R;
  item_selling_price : R;
  item_status : status
}.

(** A row of [get_sales_report]. *)
Record report_line (R : Type) : Type := {
  line_sale_date : Z;
  line_sale_time : string;
  line_name : string;
  line_customer_name : string;
  line_quantity : Z;
  line_total_amount : R;
  line_profit : R
}.

(** A row of [get_expiring_medicines]. *)
Record expiring_item : Set := {
  exp_name : string;
  exp_quantity : Z;
  exp_expiry_date : Z;
  days_remaining : Z
}.

(** The second component of what [sell_medicine] returns. *)
Inductive sell_message (R : Type) : Type :=
| Inventory_item_not_found          (* "Inventory item not found" *)
| Not_enough_stock                  (* "Not enough stock" *)
| Sold (quantity : Z) (customer_name : string) (total_amount : R).
Arguments Inventory_item_not_found {R}.
Arguments Not_enough_stock {R}.

(** The failure kinds of the specification. *)
Inductive failure_kind : Set :=
  InvalidInput | InvalidReference | NotFound | InsufficientStock.

(* ================================================================= *)
(** ** The operations of [PharmacyInventorySystem] *)

Section Model.
Context {R : Type} {P : PriceOps R}.

(** *** [load_medicine_data] *)

(** [INSERT OR IGNORE INTO medicines (name, ...)]: the row is dropped when
    it violates a constraint of the table.  The id is generated, so the
    only constraint that can fail is [name TEXT NOT NULL]. *)
Definition insert_or_ignore_medicine (rows : list Medicines.row)
    (name generic_name type power company price : option string)
  : list Medicines.row :=
  match name with
  | None => rows
  | Some n =>
      rows ++ [Medicines.mk (next_rowid (map Medicines.id rows))
                            n generic_name type power company price]
  end.

(** The [for med in medicines] loop; [med['name']] raises [KeyError] when
    the key is absent, and the loop ends there with the rows inserted so
    far. *)
Fixpoint load_loop (meds : list json_object) (rows : list Medicines.row)
  : list Medicines.row * outcome unit :=
  match meds with
  | [] => (rows, Returned tt)
  | med :: rest =>
      match dict_lookup "name" med with
      | None => (rows, Raised KeyError)
      | Some name =>
          load_loop rest
            (insert_or_ignore_medicine rows name
               (dict_get med "generic_name") (dict_get med "type")
               (dict_get med "power") (dict_get med "company")
               (dict_get med "price"))
      end
  end.

(** [json_file] is the parsed content of the file, [None] when the file
    does not exist ([FileNotFoundError], which the method catches).  A
    [KeyError] is not caught and leaves the method before [commit]: the
    rows inserted so far are in the open transaction of the connection,
    where every later statement reads them and the next [commit] (of
    [add_to_inventory] or [sell_medicine]) keeps them.  The database
    returned is what the connection reads. *)
Definition load_medicine_data (json_file : option (list json_object))
    (db : DB R) : DB R * outcome unit :=
  let count := Z.of_nat (List.length (medicines db)) in
  if count =? 0 then
    match json_file with
    | None => (db, Returned tt)
    | Some meds =>
        let '(rows, result) := load_loop meds (medicines db) in
        ({| medicines := rows; inventory := inventory db;
            sales := sales db |}, result)
    end
  else (db, Returned tt).

(** *** [add_to_inventory] *)

(** The date is parsed, then the row is inserted.  The INSERT is the
    code's for values in range ([lot_in_range]): [sqlite3] raises
    [OverflowError] on an [int] outside 64 bits and [IntegrityError] on a
    NaN price. *)
Definition add_to_inventory (clk : Clock) (db : DB R)
    (medicine_id quantity : Z) (expiry_date : string)
    (purchase_price selling_price : R) : DB R * outcome Z :=
  match Strptime.strptime expiry_date with
  | None => (db, Raised ValueError)
  | Some expiry =>
      let lastrowid := next_rowid (map (@Inventory.id R) (inventory db)) in
      ({| medicines := medicines db;
          inventory := inventory db ++
            [Inventory.mk lastrowid medicine_id quantity expiry
                          purchase_price selling_price (today clk)];
          sales := sales db |},
       Returned lastrowid)
  end.

(** *** [sell_medicine] *)

(** [SELECT ... FROM inventory WHERE id = ?] *)
Definition inventory_where_id (db : DB R) (inventory_id : Z)
  : list (Inventory.row R) :=
  filter (fun i => Inventory.id i =? inventory_id) (inventory db).

(** [cursor.fetchone()] *)
Definition fetchone {A : Type} (rows : list A) : option A := hd_error rows.

(** [UPDATE inventory SET quantity = quantity - ? WHERE id = ?].  The
    difference is SQLite's where it fits 64 bits; one that does not is
    computed on REALs and stored as a REAL. *)
Definition update_quantity (quantity inventory_id : Z)
    (rows : list (Inventory.row R)) : list (Inventory.row R) :=
  map (fun i => if Inventory.id i =? inventory_id
                then Inventory.set_quantity (Inventory.quantity i - quantity) i
                else i) rows.

(** The two SELECTs, the test of the stock, the INSERT and the UPDATE.
    They are the code's for an id within 64 bits and a sale in range
    ([sale_in_range]): [sqlite3] raises [OverflowError] where it is to bind
    an [int] outside 64 bits, the id at the first SELECT and the quantity
    at the INSERT, and [IntegrityError] on a total that is NaN. *)
Definition sell_medicine (clk : Clock) (db : DB R)
    (inventory_id quantity : Z) (customer_name : option string)
  : DB R * outcome (bool * sell_message R) :=
  let customer_name := with_default "" customer_name in
  match fetchone (map (@Inventory.quantity R) (inventory_where_id db inventory_id)) with
  | None => (db, Returned (false, Inventory_item_not_found))
  | Some available =>
      if available <? quantity then (db, Returned (false, Not_enough_stock))
      else
        match fetchone (map (@Inventory.selling_price R)
                            (inventory_where_id db inventory_id)) with
        | None => (db, Raised TypeError)
        | Some selling_price =>
            let total_amount := mul quantity selling_price in
            let current_time := local_time clk in
            ({| medicines := medicines db;
                inventory := update_quantity quantity inventory_id (inventory db);
                sales := sales db ++
                  [Sales.mk (next_rowid (map (@Sales.id R) (sales db)))
                            inventory_id quantity selling_price customer_name
                            (today clk) current_time total_amount] |},
             Returned (true, Sold quantity customer_name total_amount))
        end
  end.

(** The failure kind a result of [sell_medicine] reports. *)
Definition sell_failure (r : outcome (bool * sell_message R))
  : option failure_kind :=
  match r with
  | Returned (false, Inventory_item_not_found) => Some NotFound
  | Returned (false, Not_enough_stock) => Some InsufficientStock
  | _ => None
  end.

(** *** [get_inventory] *)

Definition inventory_status (clk : Clock) (low_stock_threshold : Z)
    (i : Inventory.row R) : status :=
  if Inventory.quantity i <=? low_stock_threshold then LOW
  else if Inventory.expiry_date i <? today clk + 30 then NEAR_EXPIRY
  else OK.

Definition inventory_medicines (db : DB R)
  : list (Inventory.row R * Medicines.row) :=
  join (fun i m => Inventory.medicine_id i =? Medicines.id m)
       (inventory db) (medicines db).

(** The SELECT list: [i.id, m.name, i.quantity, i.expiry_date,
    i.purchase_price, i.selling_price] and the CASE. *)
Definition inventory_item_of (clk : Clock) (low_stock_threshold : Z)
    (i : Inventory.row R) (m : Medicines.row) : inventory_item R :=
  {| item_id := Inventory.id i;
     item_name := Medicines.name m;
     item_quantity := Inventory.quantity i;
     item_expiry_date := Inventory.expiry_date i;
     item_purchase_price := Inventory.purchase_price i;
     item_selling_price := Inventory.selling_price i;
     item_status := inventory_status clk low_stock_threshold i |}.

Definition get_inventory (clk : Clock) (db : DB R)
    (low_stock_threshold : option Z) : list (inventory_item R) :=
  let low_stock_threshold := with_default 10 low_stock_threshold in
  map (fun '(i, m) => inventory_item_of clk low_stock_threshold i m)
    (order_by (fun a b => Inventory.expiry_date (fst a) <=? Inventory.expiry_date (fst b))
       (filter (fun '(i, _) => 0 <? Inventory.quantity i)
               (inventory_medicines db))).

(** *** [get_sales_report] *)

Definition date_filter (clk : Clock) (period : string) : option Z :=
  if String.eqb period "daily" then Some (today clk)
  else if String.eqb period "weekly" then Some (today clk - 7)
  else if String.eqb period "monthly" then Some (Calendar.start_of_month (today clk))
  else None.

Definition sales_inventory_medicines (db : DB R)
  : list (Sales.row R * Inventory.row R * Medicines.row) :=
  join (fun si m => Inventory.medicine_id (snd si) =? Medicines.id m)
       (join (fun s i => Sales.inventory_id s =? Inventory.id i)
             (sales db) (inventory db))
       (medicines db).

Definition has_column (c : string) : bool := existsb (String.eqb c) sales_columns.

(** [ORDER BY s.sale_date DESC, s.sale_time DESC] *)
Definition recent_first (a b : Sales.row R) : bool :=
  (Sales.sale_date b <? Sales.sale_date a) ||
  ((Sales.sale_date a =? Sales.sale_date b) &&
   String.leb (Sales.sale_time b) (Sales.sale_time a)).

(** [(s.quantity * (s.sale_price - i.purchase_price)) AS profit] *)
Definition profit (s : Sales.row R) (i : Inventory.row R) : R :=
  mul (Sales.quantity s) (sub (Sales.sale_price s) (Inventory.purchase_price i)).

(** The SELECT list of the report when [sales] has the columns
    [sale_time], [customer_name] and [total_amount] ... *)
Definition report_line_of (s : Sales.row R) (i : Inventory.row R)
    (m : Medicines.row) : report_line R :=
  {| line_sale_date := Sales.sale_date s;
     line_sale_time := Sales.sale_time s;
     line_name := Medicines.name m;
     line_customer_name := Sales.customer_name s;
     line_quantity := Sales.quantity s;
     line_total_amount := Sales.total_amount s;
     line_profit := profit s i |}.

(** ... and of the report kept for a [sales] table without them. *)
Definition old_report_line_of (s : Sales.row R) (i : Inventory.row R)
    (m : Medicines.row) : report_line R :=
  {| line_sale_date := Sales.sale_date s;
     line_sale_time := "";
     line_name := Medicines.name m;
     line_customer_name := "";
     line_quantity := Sales.quantity s;
     line_total_amount := mul (Sales.quantity s) (Sales.sale_price s);
     line_profit := profit s i |}.

Definition get_sales_report (clk : Clock) (db : DB R)
    (period : option string) : list (report_line R) :=
  let period := with_default "daily" period in
  match date_filter clk period with
  | None => []
  | Some since =>
      let selected :=
        filter (fun '(s, _, _) => since <=? Sales.sale_date s)
               (sales_inventory_medicines db) in
      if has_column "sale_time" && has_column "customer_name"
         && has_column "total_amount"
      then
        map (fun '(s, i, m) => report_line_of s i m)
            (order_by (fun a b => recent_first (fst (fst a)) (fst (fst b))) selected)
      else
        map (fun '(s, i, m) => old_report_line_of s i m)
            (order_by (fun a b => Sales.sale_date (fst (fst b)) <=? Sales.sale_date (fst (fst a)))
                      selected)
  end.

(** *** [get_expiring_medicines] *)

(** [CAST(julianday(i.expiry_date) - julianday('now') AS INTEGER)]:
    [julianday] of a date is the instant that date begins, [julianday('now')]
    is the present instant, the difference is in days.  Both instants are
    whole milliseconds, and the REAL difference has the same integer part
    as the exact quotient below: the two agree to far less than one
    millisecond. *)
Definition days_until (clk : Clock) (expiry_date : Z) : Z :=
  cast_integer ((expiry_date - today clk) * ms_per_day - ms_of_day clk) ms_per_day.

Definition expiring_item_of (clk : Clock) (i : Inventory.row R)
    (m : Medicines.row) : expiring_item :=
  {| exp_name := Medicines.name m;
     exp_quantity := Inventory.quantity i;
     exp_expiry_date := Inventory.expiry_date i;
     days_remaining := days_until clk (Inventory.expiry_date i) |}.

Definition get_expiring_medicines (clk : Clock) (db : DB R)
    (days : option Z) : list expiring_item :=
  let days := with_default 30 days in
  map (fun '(i, m) => expiring_item_of clk i m)
    (order_by (fun a b => Inventory.expiry_date (fst a) <=? Inventory.expiry_date (fst b))
       (filter (fun '(i, _) =>
                  sql_between (Inventory.expiry_date i)
                              (Some (today clk)) (date_now_plus clk days))
               (inventory_medicines db))).

(** *** Vocabulary of the properties *)

(** The lot an id designates: the row the SELECTs of [sell_medicine] see. *)
Definition lot_of (db : DB R) (inventory_id : Z) : option (Inventory.row R) :=
  fetchone (inventory_where_id db inventory_id).


(** The database a sale leaves, and the row it records. *)
Definition after_sale (db : DB R) (inventory_id quantity : Z) (sale : Sales.row R) : DB R :=
  {| medicines := medicines db;
     inventory := update_quantity quantity inventory_id (inventory db);
     sales := (sales db ++ [sale])%list |}.

Definition sale_record (clk : Clock) (db : DB R) (inventory_id quantity : Z)
    (customer_name : option string) (lot : Inventory.row R) : Sales.row R :=
  Sales.mk (next_rowid (map (@Sales.id R) (sales db))) inventory_id quantity
           (Inventory.selling_price lot) (with_default "" customer_name)
           (today clk) (local_time clk)
           (mul quantity (Inventory.selling_price lot)).

(** The database an added lot leaves, and the row that is inserted:
    [purchase_date] takes its default, [CURRENT_DATE]. *)
Definition after_add (db : DB R) (lot : Inventory.row R) : DB R :=
  {| medicines := medicines db;
     inventory := (inventory db ++ [lot])%list;
     sales := sales db |}.

Definition new_lot (clk : Clock) (db : DB R) (medicine_id quantity expiry : Z)
    (purchase_price selling_price : R) : Inventory.row R :=
  Inventory.mk (next_rowid (map (@Inventory.id R) (inventory db)))
               medicine_id quantity expiry purchase_price selling_price
               (today clk).

(** The failure kind a result of [add_to_inventory] reports: the
    [ValueError] of a malformed date is the only failure it has. *)
Definition add_failure (r : outcome Z) : option failure_kind :=
  match r with
  | Raised ValueError => Some InvalidInput
  | _ => None
  end.

(** The writing operations, and their effect on the database. *)
Inductive operation : Type :=
| AddLot (medicine_id quantity : Z) (expiry_date : string)
         (purchase_price selling_price : R)
| Sell (inventory_id quantity : Z) (customer_name : option string).

Definition step (db : DB R) (c : Clock * operation) : DB R :=
  match snd c with
  | AddLot m q e pp sp => fst (add_to_inventory (fst c) db m q e pp sp)
  | Sell i q n => fst (sell_medicine (fst c) db i q n)
  end.

Definition run (db : DB R) (ops : list (Clock * operation)) : DB R :=
  fold_left step ops db.




(** The order of a report's lines: later date first, and within a date
    later time first. *)
Definition recent_first_line (a b : report_line R) : Prop :=
  line_sale_date b < line_sale_date a \/
  (line_sale_date a = line_sale_date b /\
   String.leb (line_sale_time b) (line_sale_time a) = true).

(** The lines of the sales dated [since] or later, most recent first. *)
Definition report_since (db : DB R) (since : Z) (lines : list (report_line R))
  : Prop :=
  (forall line,
      In line lines <->
      exists s i m,
        In s (sales db) /\ In i (inventory db) /\ In m (medicines db) /\
        Sales.inventory_id s = Inventory.id i /\
        Inventory.medicine_id i = Medicines.id m /\
        since <= Sales.sale_date s /\
        line = report_line_of s i m) /\
  Sorted recent_first_line lines.

(** A database with a catalog and no lot or sale yet. *)
Definition fresh (catalog : list Medicines.row) : DB R :=
  {| medicines := catalog; inventory := []; sales := [] |}.

(** A row of [get_expiring_medicines] without its [days_remaining]. *)
Definition exp_lot (r : expiring_item) : string * Z * Z :=
  (exp_name r, exp_quantity r, exp_expiry_date r).

(** The same three columns, of a lot joined with its medicine. *)
Definition lot_columns (p : Inventory.row R * Medicines.row) : string * Z * Z :=
  (Medicines.name (snd p), Inventory.quantity (fst p),
   Inventory.expiry_date (fst p)).

(** The lot expires today or in the [days] days that follow. *)
Definition expires_within (clk : Clock) (days : Z)
    (p : Inventory.row R * Medicines.row) : bool :=
  (today clk <=? Inventory.expiry_date (fst p)) &&
  (Inventory.expiry_date (fst p) <=? today clk + days).

End Model.

(* ================================================================= *)
(** ** The calls that stay within 64 bits *)

Section Range.
Context {R : Type} {P : PriceOps R} {V : RealValue R}.

(** The INSERT of [add_to_inventory] binds [medicine_id] and [quantity],
    and its two prices go into REAL NOT NULL columns. *)
Definition lot_in_range (medicine_id quantity : Z)
    (purchase_price selling_price : R) : bool :=
  int64b medicine_id && int64b quantity &&
  negb (is_nan purchase_price) && negb (is_nan selling_price).

(** The INSERT of [sell_medicine] binds [quantity] and puts
    [total_amount] into a REAL NOT NULL column; its UPDATE computes
    [quantity - ?] on the lot. *)
Definition sale_in_range (lot : Inventory.row R) (quantity : Z) : bool :=
  int64b quantity && int64b (Inventory.quantity lot - quantity) &&
  negb (is_nan (mul quantity (Inventory.selling_price lot))).

(** An operation all of whose bindings and results are in range, on a
    date given in ASCII.  A malformed date is refused before anything is
    bound, and so is a sale for want of stock. *)
Definition step_in_range (db : DB R) (c : Clock * operation (R := R)) : bool :=
  match snd c with
  | AddLot m q e pp sp =>
      Strptime.ascii_text e &&
      match Strptime.strptime e with
      | Some _ => lot_in_range m q pp sp
      | None => true
      end
  | Sell k q _ =>
      int64b k &&
      match lot_of db k with
      | Some lot => (Inventory.quantity lot <? q) || sale_in_range lot q
      | None => true
      end
  end.

Fixpoint run_in_range (db : DB R) (ops : list (Clock * operation (R := R)))
  : bool :=
  match ops with
  | [] => true
  | c :: rest => step_in_range db c && run_in_range (step db c) rest
  end.

End Range.

(* ================================================================= *)
(** ** A concrete pharmacy *)

(** Prices as exact rationals. *)
#[local] Instance rational_values : RealValue Q :=
  {| is_nan := fun _ => false |}.

#[local] Instance rational_prices : PriceOps Q :=
  {| mul := fun q p => Qmult (inject_Z q) p; sub := Qminus |}.

(** 2024-10-04, noon. *)
Definition noon : Clock :=
  {| today := 20000; ms_of_day := 43200000; local_time := "12:00:00" |}.

Definition paracetamol : Medicines.row :=
  Medicines.mk 1 "Paracetamol" None None None None None.

Definition stocked : DB Q :=
  {| medicines := [paracetamol];
     inventory := [Inventory.mk 1 1 100 47117 (2 # 1)%Q (5 # 1)%Q 20000];
     sales := [] |}.

(** A lot whose [medicine_id] names no catalog row, as
    [add_to_inventory 999 ...] leaves it, and a sale against it. *)
Definition orphan_lot : Inventory.row Q :=
  Inventory.mk 1 999 10 20005 (2 # 1)%Q (5 # 1)%Q 20000.


Definition two_lots : DB Q :=
  {| medicines := [paracetamol];
     inventory := [orphan_lot;
                   Inventory.mk 2 1 0 20005 (2 # 1)%Q (5 # 1)%Q 20000];
     sales := [] |}.

Definition same_name_twice : list json_object :=
  [[("name", Some "Paracetamol"); ("company", Some "Acme")];
   [("name", Some "Paracetamol"); ("company", Some "Zenith")]].

(* ================================================================= *)
(** ** [search_medicine] *)

Module Like.

(** SQLite's [LIKE] folds the 26 ASCII upper-case letters and no other
    character. *)
Definition lower (c : ascii) : ascii :=
  let n := nat_of_ascii c in
  if ((65 <=? n) && (n <=? 90))%nat then ascii_of_nat (n + 32) else c.

Fixpoint fold_case (s : string) : string :=
  match s with
  | EmptyString => EmptyString
  | String c s' => String (lower c) (fold_case s')
  end.

(** [s LIKE p] on ASCII text: [%] stands for any run of characters, [_] for
    any one character, every other character for itself up to case. *)
Fixpoint like (p : string) : string -> bool :=
  match p with
  | EmptyString => fun s => match s with EmptyString => true | _ => false end
  | String c p' =>
      if Ascii.eqb c "%" then
        fix any (s : string) : bool :=
          like p' s || match s with
                       | EmptyString => false
                       | String _ s' => any s'
                       end
      else if Ascii.eqb c "_" then
        fun s => match s with
                 | EmptyString => false
                 | String _ s' => like p' s'
                 end
      else
        fun s => match s with
                 | EmptyString => false
                 | String d s' => Ascii.eqb (lower c) (lower d) && like p' s'
                 end
  end.

(** A text in which [LIKE] finds no wildcard. *)
Fixpoint literal (s : string) : bool :=
  match s with
  | EmptyString => true
  | String c s' => negb (Ascii.eqb c "%") && negb (Ascii.eqb c "_") && literal s'
  end.

(** SQLite reads pattern and text as C strings, which end at the first
    NUL character, and refuses a pattern of more than 50000 bytes
    ([SQLITE_MAX_LIKE_PATTERN_LENGTH]); [like] is [LIKE] on texts without
    NUL and patterns within that length. *)
Fixpoint no_nul (s : string) : bool :=
  match s with
  | EmptyString => true
  | String c s' => negb (Ascii.eqb c zero) && no_nul s'
  end.

Definition max_pattern_length : Z := 50000.

End Like.

(* ================================================================= *)
(** ** The schema that [create_tables] leaves *)

Module Schema.

(** The columns of each table, by name and in order; [None] when the
    database has no such table. *)
Record t : Set := {
  medicines_table : option (list string);
  inventory_table : option (list string);
  sales_table : option (list string)
}.

Definition medicines_columns : list string :=
  ["id"; "name"; "generic_name"; "type"; "power"; "company"; "price"].

Definition inventory_columns : list string :=
  ["id"; "medicine_id"; "quantity"; "expiry_date"; "purchase_price";
   "selling_price"; "purchase_date"].

(** [CREATE TABLE IF NOT EXISTS]: a table that exists is left as it is. *)
Definition create_table_if_not_exists (columns : list string)
    (table : option (list string)) : list string :=
  match table with
  | Some existing => existing
  | None => columns
  end.

(** [ALTER TABLE sales ADD COLUMN c]: SQLite refuses the column when the
    table has one of that name, names being compared without case; [None]
    is that error. *)
Definition add_column (c : string) (columns : list string) : option (list string) :=
  if existsb (fun c' => String.eqb (Like.fold_case c) (Like.fold_case c')) columns
  then None
  else Some (columns ++ [c])%list.

(** [if c not in existing_columns: ALTER TABLE sales ADD COLUMN c], the
    membership being Python's, on the names as [PRAGMA table_info] gave
    them before any column was added. *)
Definition add_if_missing (existing_columns : list string) (c : string)
    (columns : list string) : option (list string) :=
  if existsb (String.eqb c) existing_columns then Some columns
  else add_column c columns.

(** The three tables after [create_tables], and whether it ran to its end
    ([false]: an ALTER TABLE raised, the columns added before it stay). *)
Definition create_tables (s : t) : t * bool :=
  let medicines := create_table_if_not_exists medicines_columns (medicines_table s) in
  let inventory := create_table_if_not_exists inventory_columns (inventory_table s) in
  let sales := create_table_if_not_exists sales_columns (sales_table s) in
  let existing_columns := sales in
  let made (columns : list string) :=
    {| medicines_table := Some medicines;
       inventory_table := Some inventory;
       sales_table := Some columns |} in
  match add_if_missing existing_columns "customer_name" sales with
  | None => (made sales, false)
  | Some sales1 =>
      match add_if_missing existing_columns "sale_time" sales1 with
      | None => (made sales1, false)
      | Some sales2 =>
          match add_if_missing existing_columns "total_amount" sales2 with
          | None => (made sales2, false)
          | Some sales3 => (made sales3, true)
          end
      end
  end.

(** The test [get_sales_report] makes on the columns of [sales]. *)
Definition new_format (columns : list string) : bool :=
  existsb (String.eqb "sale_time") columns &&
  existsb (String.eqb "customer_name") columns &&
  existsb (String.eqb "total_amount") columns.

(** No database yet, and the database that main.py creates. *)
Definition absent : t :=
  {| medicines_table := None; inventory_table := None; sales_table := None |}.

Definition of_main_py : t :=
  {| medicines_table := Some medicines_columns;
     inventory_table := Some inventory_columns;
     sales_table := Some ["id"; "inventory_id"; "quantity"; "sale_price"; "sale_date"] |}.

End Schema.

(* ================================================================= *)
(** ** [search_medicine], and the dashboard's view of two queries *)

Section MoreModel.
Context {R : Type} {P : PriceOps R}.

(** [SELECT * FROM medicines WHERE name LIKE ? ORDER BY name], the
    parameter being [f'%{name}%']; names compare as bytes. *)
Definition search_medicine (db : DB R) (name : string) : list Medicines.row :=
  order_by (fun a b => String.leb (Medicines.name a) (Medicines.name b))
    (filter (fun m => Like.like ("%" ++ name ++ "%") (Medicines.name m))
            (medicines db)).

(** A text occurs in another, up to the case of ASCII letters. *)
Definition occurs_in (part whole : string) : Prop :=
  exists before found after,
    whole = (before ++ found ++ after)%string /\
    Like.fold_case found = Like.fold_case part.

(** The ids 1, 2, ..., n that a table gets when rows are only inserted. *)
Definition first_ids (n : nat) : list Z := map Z.of_nat (seq 1 n).

(** The names that the records of a file give, in order: a record whose
    name is [null] gives none. *)
Definition record_names (meds : list json_object) : list string :=
  flat_map (fun med => match dict_lookup "name" med with
                       | Some (Some n) => [n]
                       | _ => []
                       end) meds.

(** The quantities with which a sequence of operations creates lots. *)
Definition added_quantities (ops : list (Clock * operation (R := R))) : list Z :=
  flat_map (fun c => match snd c with
                     | AddLot _ q _ _ _ => [q]
                     | Sell _ _ _ => []
                     end) ops.

(** A lot as it was, but for its quantity. *)
Definition same_lot (old cur : Inventory.row R) : Prop :=
  cur = Inventory.set_quantity (Inventory.quantity cur) old.

End MoreModel.

(* ================================================================= *)
(** ** The command-line variant, main.py *)

Module MainPy.

(** Its [sales] table has no customer, time or total. *)
Record sale (R : Type) : Type := mk_sale {
  id : Z;
  inventory_id : Z;
  quantity : Z;
  sale_price : R;
  sale_date : Z
}.

Record DB (R : Type) : Type := {
  medicines : list Medicines.row;
  inventory : list (Inventory.row R);
  sales : list (sale R)
}.

(** The second component of what its [sell_medicine] returns. *)
Inductive message (R : Type) : Type :=
| Not_enough_stock
| Sold (quantity : Z) (total : R).
Arguments Not_enough_stock {R}.

Section Operations.
Context {R : Type} {P : PriceOps R}.

(** [load_medicine_data] reads the file at every start: there is no count
    of the rows present. *)
Definition load_medicine_data (json_file : option (list json_object))
    (db : DB R) : DB R * outcome unit :=
  match json_file with
  | None => (db, Returned tt)
  | Some meds =>
      let '(rows, result) := load_loop meds (medicines db) in
      ({| medicines := rows; inventory := inventory db; sales := sales db |},
       result)
  end.

(** [sell_medicine] subscripts what [fetchone] returns without a test:
    [None[0]] raises [TypeError].  As for app.py's, the statements are the
    code's for an id within 64 bits and a sale in range. *)
Definition sell_medicine (clk : Clock) (db : DB R) (inventory_id quantity : Z)
  : DB R * outcome (bool * message R) :=
  let found := filter (fun i => Inventory.id i =? inventory_id) (inventory db) in
  match fetchone (map (@Inventory.quantity R) found) with
  | None => (db, Raised TypeError)
  | Some available =>
      if available <? quantity then (db, Returned (false, Not_enough_stock))
      else
        match fetchone (map (@Inventory.selling_price R) found) with
        | None => (db, Raised TypeError)
        | Some selling_price =>
            ({| medicines := medicines db;
                inventory := update_quantity quantity inventory_id (inventory db);
                sales := (sales db ++
                  [mk_sale (next_rowid (map (@id R) (sales db)))
                           inventory_id quantity selling_price (today clk)])%list |},
             Returned (true, Sold quantity (mul quantity selling_price)))
        end
  end.

(** [get_inventory] has the same SELECT without ORDER BY: the rows come as
    the join scans them. *)
Definition get_inventory (clk : Clock) (db : DB R)
    (low_stock_threshold : option Z) : list (inventory_item R) :=
  let low_stock_threshold := with_default 10 low_stock_threshold in
  map (fun '(i, m) => inventory_item_of clk low_stock_threshold i m)
    (filter (fun '(i, _) => 0 <? Inventory.quantity i)
       (join (fun i m => Inventory.medicine_id i =? Medicines.id m)
             (inventory db) (medicines db))).

End Operations.
End MainPy.

(* ================================================================= *)
(** ** More of the concrete pharmacy *)

(** The database of main.py with the medicines and the lot of [stocked]. *)
Definition old_stocked : MainPy.DB Q :=
  {| MainPy.medicines := [paracetamol];
     MainPy.inventory := [Inventory.mk 1 1 100 47117 (2 # 1)%Q (5 # 1)%Q 20000];
     MainPy.sales := [] |}.

(** [stocked] after the sale of 30 to Alice. *)
Definition sold_once : DB Q := fst (sell_medicine noon stocked 1 30 (Some "Alice")).

(** A lot of 50 that expires in 5 days. *)
Definition expiring_soon : DB Q :=
  {| medicines := [paracetamol];
     inventory := [Inventory.mk 1 1 50 20005 (2 # 1)%Q (5 # 1)%Q 20000];
     sales := [] |}.

(** The operations of the scenario. *)
Definition scenario_ops : list (Clock * operation (R := Q)) :=
  [(noon, AddLot 1 100 "2099-01-01" (2 # 1)%Q (5 # 1)%Q);
   (noon, Sell 1 30 (Some "Alice"));
   (noon, Sell 1 80 None)].

Local Open Scope list_scope.

(* ================================================================= *)
(** ** The calendar: day numbers and civil dates are inverse *)

Module CalendarFacts.
Import Calendar.

Lemma year_of_era (yoe doy : Z) :
  0 <= yoe <= 399 -> 0 <= doy ->
  (doy <= 364 \/ (doy = 365 /\ (yoe + 1) mod 4 = 0 /\
                   ((yoe + 1) mod 100 <> 0 \/ (yoe + 1) mod 400 = 0))) ->
  let doe := yoe * 365 + yoe / 4 - yoe / 100 + doy in
  0 <= doe <= 146096 /\
  (doe - doe / 1460 + doe / 36524 - doe / 146096) / 365 = yoe.
Proof.
  intros Hy Hd Hleap doe. subst doe.
  Z.div_mod_to_equations; lia.
Qed.

Lemma month_of_doy (mp d : Z) :
  0 <= mp <= 11 ->
  1 <= d <= (153 * (mp + 1) + 2) / 5 - (153 * mp + 2) / 5 ->
  let doy := (153 * mp + 2) / 5 + d - 1 in
  (5 * doy + 2) / 153 = mp.
Proof.
  intros Hmp Hd doy. subst doy.
  Z.div_mod_to_equations; lia.
Qed.

(** The month seen from March: its index, the days before it, and a bound
    on its length. *)
Lemma month_from_march (y m d mp : Z) :
  1 <= m <= 12 -> 1 <= d <= days_in_month y m ->
  mp = (if 2 <? m then m - 3 else m + 9) ->
  0 <= mp <= 11 /\
  m = (if mp <? 10 then mp + 3 else mp - 9) /\
  d <= (153 * (mp + 1) + 2) / 5 - (153 * mp + 2) / 5 /\
  ((153 * mp + 2) / 5 + d - 1 <= 364 \/
   ((153 * mp + 2) / 5 + d - 1 = 365 /\ m = 2 /\ is_leap y = true)).
Proof.
  intros Hm Hd Hmp.
  assert (Hcases : m = 1 \/ m = 2 \/ m = 3 \/ m = 4 \/ m = 5 \/ m = 6 \/
                   m = 7 \/ m = 8 \/ m = 9 \/ m = 10 \/ m = 11 \/ m = 12) by lia.
  unfold days_in_month in Hd.
  repeat destruct Hcases as [-> | Hcases]; try subst m;
    vm_compute in Hmp; subst mp;
    destruct (is_leap y); simpl in Hd;
    (split; [lia | split; [reflexivity | split; [Z.div_mod_to_equations; lia |]]]);
    first [left; Z.div_mod_to_equations; lia
          | destruct (Z.eq_dec d 29) as [-> | Hd29];
            [right; split; [reflexivity | split; reflexivity]
            | left; Z.div_mod_to_equations; lia]].
Qed.

Lemma is_leap_era (y' era yoe : Z) :
  yoe = y' - era * 400 ->
  is_leap (y' + 1) = true ->
  (yoe + 1) mod 4 = 0 /\ ((yoe + 1) mod 100 <> 0 \/ (yoe + 1) mod 400 = 0).
Proof.
  unfold is_leap. intros -> H.
  apply andb_true_iff in H. destruct H as [H4 H100].
  apply Z.eqb_eq in H4. apply orb_true_iff in H100.
  rewrite negb_true_iff, Z.eqb_neq, Z.eqb_eq in H100.
  Z.div_mod_to_equations. lia.
Qed.

Lemma civil_day_number y m d :
  1 <= m <= 12 -> 1 <= d <= days_in_month y m ->
  civil (day_number y m d) = (y, m, d).
Proof.
  intros Hm Hd. unfold civil, day_number.
  set (y' := if m <=? 2 then y - 1 else y).
  set (era := y' / 400).
  set (yoe := y' - era * 400).
  set (mp := if 2 <? m then m - 3 else m + 9).
  set (doy := (153 * mp + 2) / 5 + d - 1).
  set (doe := yoe * 365 + yoe / 4 - yoe / 100 + doy).
  assert (Hyoe : 0 <= yoe <= 399) by (subst yoe era; Z.div_mod_to_equations; lia).
  destruct (@month_from_march y m d mp Hm Hd eq_refl) as (Hmp & Hm' & Hlen & Hdoy).
  assert (Hdoy0 : 0 <= doy) by (subst doy; Z.div_mod_to_equations; lia).
  assert (Hy' : y = if m <=? 2 then y' + 1 else y')
    by (subst y'; destruct (m <=? 2); lia).
  assert (Hyear : 0 <= doe <= 146096 /\
            (doe - doe / 1460 + doe / 36524 - doe / 146096) / 365 = yoe).
  { apply year_of_era; [exact Hyoe | exact Hdoy0 |].
    destruct Hdoy as [Hle | (Heq & -> & Hleap)]; [left; exact Hle |].
    right. split; [exact Heq |].
    apply is_leap_era with (y' := y') (era := era); [reflexivity |].
    simpl in Hy'. rewrite <- Hy'. exact Hleap. }
  destruct Hyear as [Hdoe Hyoe'].
  replace (era * 146097 + doe - 719468 + 719468) with (doe + era * 146097) by lia.
  rewrite Z.div_add by lia. rewrite (Z.div_small doe) by lia. simpl (0 + era).
  replace (doe + era * 146097 - era * 146097) with doe by lia.
  rewrite Hyoe'.
  replace (doe - (365 * yoe + yoe / 4 - yoe / 100)) with doy by (subst doe; lia).
  pose proof (@month_of_doy mp d Hmp (conj (proj1 Hd) Hlen)) as Hmonth.
  cbv zeta in Hmonth. fold doy in Hmonth. rewrite Hmonth.
  rewrite <- Hm'.
  replace (yoe + era * 400) with y' by (subst yoe; lia).
  rewrite <- Hy'. f_equal. subst doy. lia.
Qed.

Lemma day_number_civil n :
  let '(y, m, d) := civil n in
  day_number y m d = n /\ 1 <= m <= 12 /\ 1 <= d <= 31.
Proof.
  unfold civil, day_number.
  set (z := n + 719468).
  set (era := z / 146097).
  set (doe := z - era * 146097).
  set (yoe := (doe - doe / 1460 + doe / 36524 - doe / 146096) / 365).
  set (doy := doe - (365 * yoe + yoe / 4 - yoe / 100)).
  set (mp := (5 * doy + 2) / 153).
  assert (Hdoe : 0 <= doe <= 146096) by (subst doe era; Z.div_mod_to_equations; lia).
  assert (Hy : 0 <= yoe <= 399 /\ 0 <= doy <= 365).
  { subst doy yoe. clearbody doe. clear - Hdoe. Z.div_mod_to_equations; lia. }
  destruct Hy as [Hyoe Hdoy].
  assert (Hmp : 0 <= mp <= 11) by (subst mp; clearbody doy; Z.div_mod_to_equations; lia).
  assert (Hd : 1 <= doy - (153 * mp + 2) / 5 + 1 <= 31).
  { subst mp. clearbody doy. clear - Hdoy. Z.div_mod_to_equations; lia. }
  destruct (Z.ltb_spec mp 10) as [Hlt | Hge].
  - destruct (Z.leb_spec (mp + 3) 2); [lia |].
    destruct (Z.ltb_spec 2 (mp + 3)); [| lia].
    replace (mp + 3 - 3) with mp by lia.
    split; [| lia].
    replace ((yoe + era * 400) / 400) with era
      by (clearbody yoe era; clear - Hyoe; Z.div_mod_to_equations; lia).
    replace (yoe + era * 400 - era * 400) with yoe by lia.
    subst doy doe z. lia.
  - destruct (Z.leb_spec (mp - 9) 2); [| lia].
    destruct (Z.ltb_spec 2 (mp - 9)); [lia |].
    replace (mp - 9 + 9) with mp by lia.
    split; [| lia].
    replace (yoe + era * 400 + 1 - 1) with (yoe + era * 400) by lia.
    replace ((yoe + era * 400) / 400) with era
      by (clearbody yoe era; clear - Hyoe; Z.div_mod_to_equations; lia).
    replace (yoe + era * 400 - era * 400) with yoe by lia.
    subst doy doe z. lia.
Qed.

Lemma days_in_month_from_28 (y m : Z) : 28 <= days_in_month y m.
Proof.
  unfold days_in_month.
  destruct (m =? 2); [destruct (is_leap y); lia |].
  destruct ((m =? 4) || (m =? 6) || (m =? 9) || (m =? 11)); lia.
Qed.

(** ['start of month'] is day 1 of the year and month of its argument,
    which is the argument's day of the month, less one, days back. *)
Lemma start_of_month_first (n : Z) :
  let '(y, m, d) := civil n in
  civil (start_of_month n) = (y, m, 1) /\
  start_of_month n = n - (d - 1) /\ 1 <= d.
Proof.
  unfold start_of_month. pose proof (day_number_civil n) as H.
  destruct (civil n) as [[y m] d]. destruct H as (Hn & Hm & Hd).
  split; [| split; [| lia]].
  - apply civil_day_number; [exact Hm |].
    pose proof (days_in_month_from_28 y m). lia.
  - rewrite <- Hn. unfold day_number. lia.
Qed.

(** What [strptime] returns is the day number of a date of the calendar,
    in the years 1 to 9999. *)
Lemma strptime_civil (s : string) (n : Z) :
  Strptime.strptime s = Some n ->
  exists y m d, civil n = (y, m, d) /\ valid_date y m d = true.
Proof.
  unfold Strptime.strptime. destruct (Strptime.fields s) as [[[y m] d]|]; [| discriminate].
  destruct (valid_date y m d) eqn:Hv; [| discriminate].
  intros H. injection H as <-. exists y, m, d. split; [| exact Hv].
  unfold valid_date in Hv. rewrite !andb_true_iff, !Z.leb_le in Hv.
  apply civil_day_number; lia.
Qed.

End CalendarFacts.

(* ================================================================= *)
(** ** Facts about the helpers *)


Section OrderByFacts.
Context {A : Type} (le : A -> A -> bool).

Let leR (a b : A) : Prop := le a b = true.

Lemma insert_row_perm (x : A) (l : list A) :
  Permutation (insert_row le x l) (x :: l).
Proof.
  induction l as [|y l IH]; simpl.
  - apply Permutation_refl.
  - destruct (le x y).
    + apply Permutation_refl.
    + eapply perm_trans; [apply perm_skip, IH | apply perm_swap].
Qed.

Lemma order_by_perm (l : list A) : Permutation (order_by le l) l.
Proof.
  induction l as [|x l IH]; simpl.
  - constructor.
  - eapply perm_trans; [apply insert_row_perm | apply perm_skip, IH].
Qed.

Lemma order_by_In (x : A) (l : list A) : In x (order_by le l) <-> In x l.
Proof.
  split; apply Permutation_in;
    [apply order_by_perm | apply Permutation_sym, order_by_perm].
Qed.

Hypothesis le_total : forall a b, le a b = true \/ le b a = true.

Lemma insert_row_HdRel (a x : A) (l : list A) :
  leR a x -> HdRel leR a l -> HdRel leR a (insert_row le x l).
Proof.
  intros Hax Hl. destruct l as [|y l]; simpl.
  - constructor. exact Hax.
  - destruct (le x y); constructor.
    + exact Hax.
    + inversion Hl; assumption.
Qed.

Lemma insert_row_sorted (x : A) (l : list A) :
  Sorted leR l -> Sorted leR (insert_row le x l).
Proof.
  induction 1 as [|y l Hs IH Hhd]; simpl.
  - repeat constructor.
  - destruct (le x y) eqn:E.
    + constructor; [constructor; assumption | constructor; exact E].
    + constructor; [exact IH |].
      apply insert_row_HdRel; [| exact Hhd].
      destruct (le_total x y) as [H | H]; [congruence | exact H].
Qed.

Lemma order_by_sorted (l : list A) : Sorted leR (order_by le l).
Proof.
  induction l as [|x l IH]; simpl.
  - constructor.
  - apply insert_row_sorted, IH.
Qed.
End OrderByFacts.

Lemma Sorted_map {A B : Type} (f : A -> B) (rel : B -> B -> Prop) (l : list A) :
  Sorted (fun a b => rel (f a) (f b)) l -> Sorted rel (map f l).
Proof.
  induction 1 as [|a l Hs IH Hhd]; simpl; constructor.
  - exact IH.
  - destruct Hhd; simpl; constructor; assumption.
Qed.

Lemma Sorted_weaken {A : Type} (rel rel' : A -> A -> Prop) (l : list A) :
  (forall a b, rel a b -> rel' a b) -> Sorted rel l -> Sorted rel' l.
Proof.
  intros H. induction 1 as [|a l Hs IH Hhd]; constructor.
  - exact IH.
  - destruct Hhd; constructor; auto.
Qed.

(** Rows sorted on an integer key: each row's key is at most that of every
    row after it. *)
Lemma order_by_key_sorted {A B : Type} (key : A -> Z) (f : A -> B)
    (key' : B -> Z) (l : list A) :
  (forall a, key' (f a) = key a) ->
  StronglySorted (fun x y => key' x <= key' y)
    (map f (order_by (fun a b => key a <=? key b) l)).
Proof.
  intros Hkey. apply Sorted_StronglySorted.
  - intros x y z Hxy Hyz. lia.
  - apply Sorted_map.
    apply Sorted_weaken with (rel := fun a b => (key a <=? key b) = true).
    + intros a b H. rewrite !Hkey. apply Z.leb_le, H.
    + apply order_by_sorted. intros a b.
      destruct (Z.leb_spec (key a) (key b)); [left; reflexivity |].
      right. apply Z.leb_le. lia.
Qed.

Lemma in_join {A B : Type} (on : A -> B -> bool) (l : list A) (r : list B)
    (a : A) (b : B) :
  In (a, b) (join on l r) <-> In a l /\ In b r /\ on a b = true.
Proof.
  unfold join. rewrite in_flat_map. split.
  - intros (a' & Ha & Hin). apply in_map_iff in Hin.
    destruct Hin as (b' & Heq & Hb). inversion Heq; subst.
    apply filter_In in Hb. tauto.
  - intros (Ha & Hb & Hon). exists a. split; [exact Ha |].
    apply in_map_iff. exists b. split; [reflexivity |].
    apply filter_In. tauto.
Qed.

Lemma fold_max_ge (i : Z) (l : list Z) :
  i <= fold_right Z.max i l /\ forall j, In j l -> j <= fold_right Z.max i l.
Proof.
  induction l as [|k l [IH1 IH2]]; simpl.
  - split; [lia | tauto].
  - split; [lia |]. intros j [-> | Hj]; [lia |].
    specialize (IH2 j Hj). lia.
Qed.

(** The generated rowid exceeds every rowid in use. *)
Lemma next_rowid_above (ids : list Z) (i : Z) :
  In i ids -> i < next_rowid ids.
Proof.
  destruct ids as [|k l]; simpl; [tauto |].
  destruct (fold_max_ge k l) as [H1 H2].
  intros [<- | Hi]; [lia |]. specialize (H2 i Hi). lia.
Qed.

Lemma next_rowid_fresh (ids : list Z) : ~ In (next_rowid ids) ids.
Proof.
  intros H. apply next_rowid_above in H. lia.
Qed.

(* ================================================================= *)
(** ** Selling *)

Section SaleFacts.
Context {R : Type} {P : PriceOps R}.
Implicit Types (db : DB R) (lot : Inventory.row R) (clk : Clock).

Lemma lot_of_In db inventory_id lot :
  lot_of db inventory_id = Some lot ->
  In lot (inventory db) /\ Inventory.id lot = inventory_id.
Proof.
  unfold lot_of, fetchone, inventory_where_id. intros H.
  assert (Hin : In lot (filter (fun i => Inventory.id i =? inventory_id) (inventory db))).
  { destruct (filter _ _); simpl in H; [discriminate |].
    injection H as ->. left; reflexivity. }
  apply filter_In in Hin. destruct Hin as [Hin Hid].
  split; [exact Hin | apply Z.eqb_eq, Hid].
Qed.

Lemma lot_of_None db inventory_id :
  lot_of db inventory_id = None <->
  ~ In inventory_id (map (@Inventory.id R) (inventory db)).
Proof.
  unfold lot_of, fetchone, inventory_where_id.
  induction (inventory db) as [|i l IH]; simpl.
  - tauto.
  - destruct (Inventory.id i =? inventory_id) eqn:E; simpl.
    + apply Z.eqb_eq in E. split; [discriminate | intros H; exfalso; apply H; auto].
    + apply Z.eqb_neq in E. rewrite IH. tauto.
Qed.


(** The rows an UPDATE touches keep their id, so the same SELECT finds
    them afterwards. *)
Lemma where_id_update (rows : list (Inventory.row R)) (q k k' : Z) :
  filter (fun i => Inventory.id i =? k') (update_quantity q k rows) =
  map (fun i => if Inventory.id i =? k
                then Inventory.set_quantity (Inventory.quantity i - q) i else i)
      (filter (fun i => Inventory.id i =? k') rows).
Proof.
  unfold update_quantity. induction rows as [|i l IH]; simpl; [reflexivity |].
  assert (Hid : Inventory.id
                  (if Inventory.id i =? k
                   then Inventory.set_quantity (Inventory.quantity i - q) i else i)
                = Inventory.id i)
    by (destruct (Inventory.id i =? k); reflexivity).
  rewrite Hid. destruct (Inventory.id i =? k'); simpl; rewrite IH; reflexivity.
Qed.

Lemma sell_medicine_found clk db inventory_id quantity customer_name lot :
  lot_of db inventory_id = Some lot ->
  sell_medicine clk db inventory_id quantity customer_name =
  if Inventory.quantity lot <? quantity
  then (db, Returned (false, Not_enough_stock))
  else (after_sale db inventory_id quantity
          (sale_record clk db inventory_id quantity customer_name lot),
        Returned (true, Sold quantity (with_default "" customer_name)
                             (mul quantity (Inventory.selling_price lot)))).
Proof.
  unfold lot_of, sell_medicine, fetchone. intros H.
  destruct (inventory_where_id db inventory_id) as [|i l]; simpl in *;
    [discriminate |].
  injection H as ->. reflexivity.
Qed.

Lemma sell_medicine_missing clk db inventory_id quantity customer_name :
  lot_of db inventory_id = None ->
  sell_medicine clk db inventory_id quantity customer_name =
  (db, Returned (false, Inventory_item_not_found)).
Proof.
  unfold lot_of, sell_medicine, fetchone. intros H.
  destruct (inventory_where_id db inventory_id); simpl in *;
    [reflexivity | discriminate].
Qed.

Lemma lot_of_after_sale db inventory_id quantity sale lot :
  lot_of db inventory_id = Some lot ->
  lot_of (after_sale db inventory_id quantity sale) inventory_id =
  Some (Inventory.set_quantity (Inventory.quantity lot - quantity) lot).
Proof.
  intros H. destruct (lot_of_In _ _ H) as [_ Hid].
  unfold lot_of, inventory_where_id, after_sale in *. simpl.
  rewrite where_id_update.
  destruct (filter _ (inventory db)) as [|i l]; simpl in *; [discriminate |].
  injection H as ->. rewrite Hid, Z.eqb_refl. reflexivity.
Qed.

(** [sell_medicine] always returns: the second SELECT finds the row the
    first one found. *)
Lemma sell_medicine_returns clk db inventory_id quantity customer_name :
  exists r, snd (sell_medicine clk db inventory_id quantity customer_name) = Returned r.
Proof.
  destruct (lot_of db inventory_id) as [lot|] eqn:Hlot.
  - rewrite sell_medicine_found with (lot := lot) by exact Hlot.
    destruct (Inventory.quantity lot <? quantity); eexists; reflexivity.
  - rewrite sell_medicine_missing by exact Hlot. eexists; reflexivity.
Qed.

(** C1. Selling [q] units, [0 < q <= Q], from a lot that holds [Q] succeeds,
    leaves the lot with [Q - q] units, and appends exactly one sale, whose
    [sale_price] is the lot's [selling_price] and whose [total_amount] is [q]
    times that price; selling all of the stock leaves quantity 0. *)
Theorem sell_within_stock clk db inventory_id q customer_name lot :
  lot_of db inventory_id = Some lot ->
  0 < q <= Inventory.quantity lot ->
  exists db' lot' sale,
    sell_medicine clk db inventory_id q customer_name =
      (db', Returned (true, Sold q (with_default "" customer_name)
                                 (mul q (Inventory.selling_price lot)))) /\
    lot_of db' inventory_id = Some lot' /\
    Inventory.quantity lot' = Inventory.quantity lot - q /\
    (q = Inventory.quantity lot -> Inventory.quantity lot' = 0) /\
    sales db' = sales db ++ [sale] /\
    Sales.inventory_id sale = inventory_id /\
    Sales.quantity sale = q /\
    Sales.sale_price sale = Inventory.selling_price lot /\
    Sales.total_amount sale = mul q (Inventory.selling_price lot).
Proof.
  intros Hlot [Hpos Hle].
  rewrite sell_medicine_found with (lot := lot) by exact Hlot.
  destruct (Z.ltb_spec (Inventory.quantity lot) q) as [Hlt | _]; [lia |].
  eexists _, _, _. split; [reflexivity |].
  split; [apply lot_of_after_sale, Hlot |].
  simpl. repeat split; try reflexivity. intros ->. lia.
Qed.

(** C2. Selling more than the lot holds fails with InsufficientStock, and
    selling from an id that names no lot fails with NotFound; either way
    the database returned is the database given: no lot and no sale
    changes.  The id is a 64-bit integer, as every id of a lot is: the
    first SELECT binds it. *)
Theorem sell_failure_no_effect clk db inventory_id q customer_name :
  (forall lot,
      lot_of db inventory_id = Some lot -> Inventory.quantity lot < q ->
      sell_medicine clk db inventory_id q customer_name =
        (db, Returned (false, Not_enough_stock)) /\
      sell_failure (snd (sell_medicine clk db inventory_id q customer_name)) =
        Some InsufficientStock) /\
  (int64 inventory_id ->
   ~ In inventory_id (map (@Inventory.id R) (inventory db)) ->
      sell_medicine clk db inventory_id q customer_name =
        (db, Returned (false, Inventory_item_not_found)) /\
      sell_failure (snd (sell_medicine clk db inventory_id q customer_name)) =
        Some NotFound).
Proof.
  split.
  - intros lot Hlot Hlt.
    rewrite sell_medicine_found with (lot := lot) by exact Hlot.
    destruct (Z.ltb_spec (Inventory.quantity lot) q); [| lia].
    split; reflexivity.
  - intros _ Hno. apply lot_of_None in Hno.
    rewrite sell_medicine_missing by exact Hno.
    split; reflexivity.
Qed.

(** C4, as the code has it.  [sell_medicine] has no check of its own on the
    sign of the quantity: for [q <= 0] on a lot that holds [Q] it applies
    the stock test alone.  With [q <= Q], and [q], [Q - q] and the total
    amount in range, the sale goes through: the call reports success,
    records one sale of quantity [q] and leaves [Q - q] in the lot, which
    is no less than [Q] and more when [q < 0].  With [q > Q] the call fails
    with InsufficientStock and changes nothing. *)
Theorem sell_nonpositive {V : RealValue R} clk db inventory_id q
    customer_name lot :
  lot_of db inventory_id = Some lot ->
  q <= 0 ->
  (q <= Inventory.quantity lot ->
   sale_in_range lot q = true ->
     exists db' lot' sale,
       sell_medicine clk db inventory_id q customer_name =
         (db', Returned (true, Sold q (with_default "" customer_name)
                                    (mul q (Inventory.selling_price lot)))) /\
       sell_failure (snd (sell_medicine clk db inventory_id q customer_name))
         = None /\
       lot_of db' inventory_id = Some lot' /\
       Inventory.quantity lot' = Inventory.quantity lot - q /\
       Inventory.quantity lot <= Inventory.quantity lot' /\
       sales db' = sales db ++ [sale] /\
       Sales.inventory_id sale = inventory_id /\
       Sales.quantity sale = q) /\
  (Inventory.quantity lot < q ->
     sell_medicine clk db inventory_id q customer_name =
       (db, Returned (false, Not_enough_stock)) /\
     sell_failure (snd (sell_medicine clk db inventory_id q customer_name))
       = Some InsufficientStock).
Proof.
  intros Hlot Hq.
  rewrite sell_medicine_found with (lot := lot) by exact Hlot.
  destruct (Z.ltb_spec (Inventory.quantity lot) q) as [Hlt | Hge].
  - split; [lia |]. intros _. split; reflexivity.
  - split; [| lia].
    intros _ _. eexists _, _, _. split; [reflexivity |].
    split; [reflexivity |].
    split; [apply lot_of_after_sale, Hlot |].
    simpl. repeat split; try reflexivity. lia.
Qed.

End SaleFacts.

(* ================================================================= *)
(** ** Adding lots, and what the two writers leave alone *)

Section LedgerFacts.
Context {R : Type} {P : PriceOps R}.
Implicit Types (db : DB R) (lot : Inventory.row R) (clk : Clock).

Lemma add_to_inventory_parsed clk db medicine_id quantity expiry_date
    purchase_price selling_price expiry :
  Strptime.strptime expiry_date = Some expiry ->
  add_to_inventory clk db medicine_id quantity expiry_date
                   purchase_price selling_price =
  (after_add db (new_lot clk db medicine_id quantity expiry
                         purchase_price selling_price),
   Returned (next_rowid (map (@Inventory.id R) (inventory db)))).
Proof. unfold add_to_inventory. intros ->. reflexivity. Qed.

Lemma add_to_inventory_malformed clk db medicine_id quantity expiry_date
    purchase_price selling_price :
  Strptime.strptime expiry_date = None ->
  add_to_inventory clk db medicine_id quantity expiry_date
                   purchase_price selling_price = (db, Raised ValueError).
Proof. unfold add_to_inventory. intros ->. reflexivity. Qed.

(** C5, as the code has it.  [add_to_inventory] fails with InvalidInput
    whenever the expiry date, a text of ASCII characters, is not a
    well-formed calendar date: the call raises [ValueError] and the
    database is unchanged.  It tests no sign: for a medicine of the catalog
    and a well-formed date it succeeds whatever the sign of the quantity
    and of the prices, the quantity being a 64-bit integer and the prices
    numbers; it appends one new lot that carries exactly the values given,
    under an id no existing lot has, and returns that id. *)
Theorem add_to_inventory_checks_date_only {V : RealValue R} clk db
    medicine_id quantity expiry_date purchase_price selling_price :
  let result := add_to_inventory clk db medicine_id quantity expiry_date
                                 purchase_price selling_price in
  (Strptime.ascii_text expiry_date = true ->
   Strptime.strptime expiry_date = None ->
     result = (db, Raised ValueError) /\
     add_failure (snd result) = Some InvalidInput) /\
  (forall expiry,
     In medicine_id (map Medicines.id (medicines db)) ->
     lot_in_range medicine_id quantity purchase_price selling_price = true ->
     Strptime.strptime expiry_date = Some expiry ->
     exists lot_id,
       result =
         ({| medicines := medicines db;
             inventory := inventory db ++
               [Inventory.mk lot_id medicine_id quantity expiry
                             purchase_price selling_price (today clk)];
             sales := sales db |},
          Returned lot_id) /\
       ~ In lot_id (map (@Inventory.id R) (inventory db)) /\
       add_failure (snd result) = None).
Proof.
  intros result. subst result. split.
  - intros _ Hparse. rewrite add_to_inventory_malformed by assumption.
    split; reflexivity.
  - intros expiry _ _ Hparse.
    exists (next_rowid (map (@Inventory.id R) (inventory db))).
    rewrite add_to_inventory_parsed with (expiry := expiry) by assumption.
    split; [reflexivity |]. split; [apply next_rowid_fresh | reflexivity].
Qed.

Lemma update_quantity_frame (q k : Z) (rows : list (Inventory.row R)) :
  Forall2 (fun old new =>
             (Inventory.id old <> k -> new = old) /\
             new = Inventory.set_quantity (Inventory.quantity new) old)
          rows (update_quantity q k rows).
Proof.
  unfold update_quantity.
  induction rows as [|i l IH]; simpl; constructor; [| exact IH].
  destruct (Z.eqb_spec (Inventory.id i) k) as [Heq | Hne].
  - split; [tauto | reflexivity].
  - split; [reflexivity | destruct i; reflexivity].
Qed.

Lemma sell_medicine_sold clk db inventory_id q customer_name db' msg :
  sell_medicine clk db inventory_id q customer_name =
    (db', Returned (true, msg)) ->
  exists lot,
    lot_of db inventory_id = Some lot /\ q <= Inventory.quantity lot /\
    db' = after_sale db inventory_id q
            (sale_record clk db inventory_id q customer_name lot).
Proof.
  destruct (lot_of db inventory_id) as [lot|] eqn:Hlot.
  - rewrite sell_medicine_found with (lot := lot) by exact Hlot.
    destruct (Z.ltb_spec (Inventory.quantity lot) q); [discriminate |].
    intros Hres. injection Hres as <- _. exists lot. auto.
  - rewrite sell_medicine_missing by exact Hlot. discriminate.
Qed.

(** C10. A sale that succeeds leaves every medicine and every recorded
    sale as it was and appends one sale; lot by lot, a lot other than the
    one sold from is unchanged and the one sold from differs at most in its
    quantity.  An [add_to_inventory] that succeeds leaves medicines, sales
    and the existing lots as they were and appends one lot. *)
Theorem writers_frame clk db :
  (forall inventory_id q customer_name db' msg,
      sell_medicine clk db inventory_id q customer_name =
        (db', Returned (true, msg)) ->
      medicines db' = medicines db /\
      (exists sale, sales db' = sales db ++ [sale]) /\
      Forall2 (fun old new =>
                 (Inventory.id old <> inventory_id -> new = old) /\
                 new = Inventory.set_quantity (Inventory.quantity new) old)
              (inventory db) (inventory db')) /\
  (forall medicine_id quantity expiry_date purchase_price selling_price
          db' lot_id,
      add_to_inventory clk db medicine_id quantity expiry_date
                       purchase_price selling_price =
        (db', Returned lot_id) ->
      medicines db' = medicines db /\
      sales db' = sales db /\
      exists lot, inventory db' = inventory db ++ [lot] /\
                  Inventory.id lot = lot_id).
Proof.
  split.
  - intros inventory_id q customer_name db' msg H.
    apply sell_medicine_sold in H. destruct H as (lot & _ & _ & ->).
    simpl. split; [reflexivity |]. split; [eexists; reflexivity |].
    apply update_quantity_frame.
  - intros medicine_id quantity expiry_date purchase_price selling_price
           db' lot_id H.
    unfold add_to_inventory in H.
    destruct (Strptime.strptime expiry_date); [| discriminate].
    injection H as <- <-. simpl.
    split; [reflexivity |]. split; [reflexivity |].
    eexists. split; reflexivity.
Qed.

End LedgerFacts.

(* ================================================================= *)
(** ** Conservation of stock *)

Section Conservation.
Context {R : Type} {P : PriceOps R}.
Implicit Types (db : DB R) (lot : Inventory.row R) (log : list (Z * Z)).




Lemma update_quantity_ids (q k : Z) (rows : list (Inventory.row R)) :
  map (@Inventory.id R) (update_quantity q k rows) = map (@Inventory.id R) rows.
Proof.
  unfold update_quantity. rewrite map_map. apply map_ext.
  intros i. destruct (Inventory.id i =? k); reflexivity.
Qed.







(** Rowids are never reused: no two lots share an id. *)
Lemma step_ids_NoDup db c :
  NoDup (map (@Inventory.id R) (inventory db)) ->
  NoDup (map (@Inventory.id R) (inventory (step db c))).
Proof.
  intros Hnd. destruct c as [clk [m q e pp sp | k q n]]; unfold step; simpl.
  - unfold add_to_inventory. destruct (Strptime.strptime e); simpl; [| exact Hnd].
    rewrite map_app. simpl.
    apply (Permutation_NoDup (Permutation_cons_append _ _)).
    constructor; [apply next_rowid_fresh | exact Hnd].
  - destruct (lot_of db k) as [lot|] eqn:Hlot.
    + rewrite sell_medicine_found with (lot := lot) by exact Hlot.
      destruct (Inventory.quantity lot <? q); simpl; [exact Hnd |].
      rewrite update_quantity_ids. exact Hnd.
    + rewrite sell_medicine_missing by exact Hlot. exact Hnd.
Qed.






End Conservation.

(* ================================================================= *)
(** ** The queries *)

Section QueryFacts.
Context {R : Type} {P : PriceOps R}.
Implicit Types (db : DB R) (clk : Clock).

Lemma in_inventory_medicines db (i : Inventory.row R) (m : Medicines.row) :
  In (i, m) (inventory_medicines db) <->
  In i (inventory db) /\ In m (medicines db) /\
  Inventory.medicine_id i = Medicines.id m.
Proof.
  unfold inventory_medicines. rewrite in_join, Z.eqb_eq. reflexivity.
Qed.


Lemma inventory_status_NEAR_EXPIRY clk threshold (i : Inventory.row R) :
  inventory_status clk threshold i = NEAR_EXPIRY <->
  threshold < Inventory.quantity i /\ Inventory.expiry_date i < today clk + 30.
Proof.
  unfold inventory_status.
  destruct (Z.leb_spec (Inventory.quantity i) threshold).
  - split; [discriminate | lia].
  - destruct (Z.ltb_spec (Inventory.expiry_date i) (today clk + 30)).
    + tauto.
    + split; [discriminate | lia].
Qed.

Lemma inventory_status_OK clk threshold (i : Inventory.row R) :
  inventory_status clk threshold i = OK <->
  threshold < Inventory.quantity i /\ today clk + 30 <= Inventory.expiry_date i.
Proof.
  unfold inventory_status.
  destruct (Z.leb_spec (Inventory.quantity i) threshold).
  - split; [discriminate | lia].
  - destruct (Z.ltb_spec (Inventory.expiry_date i) (today clk + 30)).
    + split; [discriminate | lia].
    + tauto.
Qed.


(** Conversely, every lot that holds something and refers to a medicine of
    the catalog has its row. *)
Lemma get_inventory_lists clk db low_stock_threshold
    (i : Inventory.row R) (m : Medicines.row) :
  In i (inventory db) -> In m (medicines db) ->
  Inventory.medicine_id i = Medicines.id m -> 0 < Inventory.quantity i ->
  In (inventory_item_of clk (with_default 10 low_stock_threshold) i m)
     (get_inventory clk db low_stock_threshold).
Proof.
  intros Hi Hm Hid Hpos. unfold get_inventory.
  apply in_map_iff. exists (i, m). split; [reflexivity |].
  apply order_by_In, filter_In. split.
  - apply in_inventory_medicines. tauto.
  - apply Z.ltb_lt, Hpos.
Qed.

Lemma in_window clk days x :
  sql_between x (Some (today clk)) (date_now_plus clk days) = true <->
  today clk <= x <= today clk + days.
Proof.
  unfold sql_between, date_now_plus.
  destruct (Z.ltb_spec days 0).
  - split; [discriminate | lia].
  - rewrite andb_true_iff, !Z.leb_le. reflexivity.
Qed.

Lemma in_get_expiring_medicines clk db days (row : expiring_item) :
  In row (get_expiring_medicines clk db days) <->
  exists i m,
    In i (inventory db) /\ In m (medicines db) /\
    Inventory.medicine_id i = Medicines.id m /\
    today clk <= Inventory.expiry_date i <= today clk + with_default 30 days /\
    row = expiring_item_of clk i m.
Proof.
  unfold get_expiring_medicines. rewrite in_map_iff. split.
  - intros ([i m] & <- & Hin).
    apply order_by_In, filter_In in Hin. destruct Hin as [Hjoin Hwin].
    apply in_inventory_medicines in Hjoin. apply in_window in Hwin.
    exists i, m. tauto.
  - intros (i & m & Hi & Hm & Hid & Hwin & ->).
    exists (i, m). split; [reflexivity |].
    apply order_by_In, filter_In. split.
    + apply in_inventory_medicines. tauto.
    + apply in_window, Hwin.
Qed.

(** C8, as the code has it.  For every [days] that keeps today + [days]
    within the dates SQLite handles (up to 9999-12-31), the rows of
    [get_expiring_medicines] are those of the lots that refer to a medicine
    of the catalog and whose expiry date lies in the closed window from
    today to today + [days], one row for each such lot and medicine: name,
    quantity and expiry date of each, by ascending expiry date.  A lot that
    expires in exactly [days] days is listed, no row expires later.  The
    quantity plays no part: a lot holding 0 is listed.  A lot whose
    [medicine_id] names no catalog row is not listed. *)
Theorem expiring_rows clk db days :
  let d := with_default 30 days in
  let rows := get_expiring_medicines clk db days in
  Calendar.first_day <= today clk ->
  today clk + d <= Calendar.last_day ->
  Permutation (map exp_lot rows)
              (map lot_columns
                   (filter (expires_within clk d) (inventory_medicines db))) /\
  (forall name quantity expiry,
      In (name, quantity, expiry) (map exp_lot rows) <->
      exists i m,
        In i (inventory db) /\ In m (medicines db) /\
        Inventory.medicine_id i = Medicines.id m /\
        today clk <= Inventory.expiry_date i <= today clk + d /\
        name = Medicines.name m /\
        quantity = Inventory.quantity i /\
        expiry = Inventory.expiry_date i) /\
  (forall row, In row rows ->
      today clk <= exp_expiry_date row <= today clk + d) /\
  StronglySorted (fun a b => exp_expiry_date a <= exp_expiry_date b) rows.
Proof.
  intros d rows _ _. subst rows d. split; [| split; [| split]].
  - unfold get_expiring_medicines. rewrite map_map.
    erewrite map_ext with (g := lot_columns) by (intros [i m]; reflexivity).
    apply Permutation_map.
    eapply perm_trans; [apply order_by_perm |].
    erewrite filter_ext; [apply Permutation_refl |].
    intros [i m]. unfold expires_within, sql_between, date_now_plus. simpl.
    destruct (Z.ltb_spec (with_default 30 days) 0) as [Hneg | _];
      [| reflexivity].
    symmetry. apply andb_false_iff.
    destruct (Z.leb_spec (today clk) (Inventory.expiry_date i)); [| left; reflexivity].
    right. apply Z.leb_gt. lia.
  - intros name quantity expiry. rewrite in_map_iff. split.
    + intros (row & Hrow & Hin). apply in_get_expiring_medicines in Hin.
      destruct Hin as (i & m & Hi & Hm & Hid & Hwin & ->).
      unfold exp_lot in Hrow. simpl in Hrow. injection Hrow as <- <- <-.
      exists i, m. tauto.
    + intros (i & m & Hi & Hm & Hid & Hwin & -> & -> & ->).
      exists (expiring_item_of clk i m). split; [reflexivity |].
      apply in_get_expiring_medicines. exists i, m. tauto.
  - intros row Hin. apply in_get_expiring_medicines in Hin.
    destruct Hin as (i & m & _ & _ & _ & Hwin & ->). exact Hwin.
  - unfold get_expiring_medicines.
    apply order_by_key_sorted with
      (key := fun a : Inventory.row R * Medicines.row =>
                Inventory.expiry_date (fst a)).
    intros [i m]. reflexivity.
Qed.

(** What [days_remaining] holds: the whole days from now to the start of
    the expiry date, counted from the present instant and not from the
    start of today. *)
Lemma days_until_midnight clk expiry :
  ms_of_day clk = 0 -> days_until clk expiry = expiry - today clk.
Proof.
  unfold days_until, cast_integer, ms_per_day. intros ->.
  rewrite Z.sub_0_r. apply Z.quot_mul. lia.
Qed.

Lemma days_until_today clk :
  0 <= ms_of_day clk < ms_per_day -> days_until clk (today clk) = 0.
Proof.
  unfold days_until, cast_integer, ms_per_day. intros H.
  rewrite Z.sub_diag. simpl.
  rewrite Z.quot_opp_l by lia. rewrite Z.quot_small by lia. reflexivity.
Qed.

Lemma days_until_later clk expiry :
  0 < ms_of_day clk < ms_per_day -> today clk < expiry ->
  days_until clk expiry = expiry - today clk - 1.
Proof.
  unfold days_until, cast_integer, ms_per_day. intros H Hlt.
  symmetry. apply Z.quot_unique with (r := 86400000 - ms_of_day clk); lia.
Qed.

Lemma new_columns_present :
  has_column "sale_time" && has_column "customer_name"
    && has_column "total_amount" = true.
Proof. reflexivity. Qed.

Lemma recent_first_total (a b : Sales.row R) :
  recent_first a b = true \/ recent_first b a = true.
Proof.
  unfold recent_first.
  destruct (Z.lt_trichotomy (Sales.sale_date a) (Sales.sale_date b))
    as [Hlt | [Heq | Hgt]].
  - right. apply orb_true_iff. left. apply Z.ltb_lt, Hlt.
  - rewrite Heq, !Z.eqb_refl, Z.ltb_irrefl. simpl.
    destruct (String.leb_total (Sales.sale_time b) (Sales.sale_time a)); auto.
  - left. apply orb_true_iff. left. apply Z.ltb_lt, Hgt.
Qed.

Lemma in_sales_inventory_medicines db (s : Sales.row R) (i : Inventory.row R)
    (m : Medicines.row) :
  In (s, i, m) (sales_inventory_medicines db) <->
  In s (sales db) /\ In i (inventory db) /\ In m (medicines db) /\
  Sales.inventory_id s = Inventory.id i /\
  Inventory.medicine_id i = Medicines.id m.
Proof.
  unfold sales_inventory_medicines. rewrite in_join, in_join, !Z.eqb_eq.
  simpl. tauto.
Qed.

Lemma get_sales_report_since clk db period since :
  date_filter clk period = Some since ->
  report_since db since (get_sales_report clk db (Some period)).
Proof.
  intros Hf. unfold get_sales_report, with_default. rewrite Hf, new_columns_present.
  split.
  - intros line. rewrite in_map_iff. split.
    + intros ([[s i] m] & <- & Hin).
      apply order_by_In, filter_In in Hin. destruct Hin as [Hjoin Hdate].
      apply in_sales_inventory_medicines in Hjoin. apply Z.leb_le in Hdate.
      exists s, i, m. tauto.
    + intros (s & i & m & Hs & Hi & Hm & Hsi & Him & Hdate & ->).
      exists (s, i, m). split; [reflexivity |].
      apply order_by_In, filter_In. split.
      * apply in_sales_inventory_medicines. tauto.
      * apply Z.leb_le, Hdate.
  - apply Sorted_map.
    apply Sorted_weaken with
      (rel := fun a b : Sales.row R * Inventory.row R * Medicines.row =>
                recent_first (fst (fst a)) (fst (fst b)) = true).
    + intros [[s i] m] [[s' i'] m']. simpl. unfold recent_first, recent_first_line.
      simpl. rewrite orb_true_iff, andb_true_iff, Z.ltb_lt, Z.eqb_eq. tauto.
    + apply order_by_sorted. intros a b. apply recent_first_total.
Qed.


End QueryFacts.

(* ================================================================= *)
(** ** Loading the catalog *)

Section CatalogFacts.
Context {R : Type} {P : PriceOps R}.
Implicit Types (db : DB R).

(** The load is skipped when the catalog has a row: a restart on existing
    data inserts nothing. *)
Lemma load_only_when_empty json_file db :
  medicines db <> [] -> load_medicine_data json_file db = (db, Returned tt).
Proof.
  unfold load_medicine_data. destruct (medicines db); [congruence |].
  intros _. simpl. reflexivity.
Qed.

(** A record whose name is text -- any text -- is inserted, whatever the
    rows already present. *)
Lemma load_loop_inserts_all (meds : list json_object) :
  forall rows : list Medicines.row,
  (forall med, In med meds -> exists n, dict_lookup "name" med = Some (Some n)) ->
  exists rows',
    load_loop meds rows = (rows', Returned tt) /\
    List.length rows' = (List.length rows + List.length meds)%nat.
Proof.
  induction meds as [|med meds IH]; intros rows Hnames; simpl.
  - exists rows. split; [reflexivity | lia].
  - destruct (Hnames med (or_introl eq_refl)) as [n Hn]. rewrite Hn.
    destruct (IH (insert_or_ignore_medicine rows (Some n)
                    (dict_get med "generic_name") (dict_get med "type")
                    (dict_get med "power") (dict_get med "company")
                    (dict_get med "price"))) as (rows' & Hrun & Hlen).
    { intros med' Hin. apply Hnames. right. exact Hin. }
    exists rows'. split; [exact Hrun |].
    rewrite Hlen. simpl. rewrite length_app. simpl. lia.
Qed.

End CatalogFacts.

(* ================================================================= *)
(** ** The concrete pharmacy at work *)

(** The scenario of the specification: a lot of 100 at 5.0, 30 sold to
    Alice, then 80 asked for. *)
Example scenario :
  let '(db1, lot_id) :=
    add_to_inventory noon (fresh [paracetamol]) 1 100 "2099-01-01" (2 # 1)%Q (5 # 1)%Q in
  let '(db2, sold30) := sell_medicine noon db1 1 30 (Some "Alice") in
  let '(db3, sold80) := sell_medicine noon db2 1 80 None in
  db1 = stocked /\ lot_id = Returned 1 /\
  sold30 = Returned (true, Sold 30 "Alice" (150 # 1)%Q) /\
  option_map (@Inventory.quantity Q) (lot_of db2 1) = Some 70 /\
  sold80 = Returned (false, Not_enough_stock) /\ db3 = db2 /\
  map (fun l => (line_name l, line_quantity l, line_total_amount l, line_profit l))
      (get_sales_report noon db3 (Some "daily")) =
    [("Paracetamol", 30, (150 # 1)%Q, (90 # 1)%Q)].
Proof. vm_compute. repeat split. Qed.

Example first_of_the_month :
  Calendar.civil (today noon) = (2024, 10, 4) /\
  Calendar.civil (Calendar.start_of_month (today noon)) = (2024, 10, 1).
Proof. vm_compute. split; reflexivity. Qed.

Example strptime_examples :
  Strptime.strptime "2099-01-01" = Some 47117 /\
  Strptime.strptime "2024-10-9" = Some 20005 /\
  Strptime.strptime "2099-02-29" = None /\
  Strptime.strptime "2099-13-01" = None /\
  Strptime.strptime "01/01/2099" = None /\
  Strptime.strptime "2099-01-01 " = None.
Proof. vm_compute. repeat split. Qed.

(** C1 at the scenario's sale. *)
Lemma sell_within_stock_witness :
  lot_of stocked 1 = Some (Inventory.mk 1 1 100 47117 (2 # 1)%Q (5 # 1)%Q 20000) /\
  0 < 30 <= 100 /\
  exists db' lot' sale,
    sell_medicine noon stocked 1 30 (Some "Alice") =
      (db', Returned (true, Sold 30 "Alice" (mul 30 (5 # 1)%Q))) /\
    lot_of db' 1 = Some lot' /\
    Inventory.quantity lot' = 100 - 30 /\
    (30 = 100 -> Inventory.quantity lot' = 0) /\
    sales db' = sales stocked ++ [sale] /\
    Sales.inventory_id sale = 1 /\
    Sales.quantity sale = 30 /\
    Sales.sale_price sale = (5 # 1)%Q /\
    Sales.total_amount sale = mul 30 (5 # 1)%Q.
Proof.
  split; [reflexivity |]. split; [lia |].
  apply (@sell_within_stock Q rational_prices noon stocked 1 30 (Some "Alice")
           (Inventory.mk 1 1 100 47117 (2 # 1)%Q (5 # 1)%Q 20000)).
  - reflexivity.
  - simpl. lia.
Defined.


(** C4: a sale of -5 units from the lot of 100 is accepted. *)
Lemma negative_sale_accepted :
  lot_of stocked 1 = Some (Inventory.mk 1 1 100 47117 (2 # 1)%Q (5 # 1)%Q 20000) /\
  -5 <= 0 /\
  snd (sell_medicine noon stocked 1 (-5) None) =
    Returned (true, Sold (-5) "" (-25 # 1)%Q) /\
  sell_failure (snd (sell_medicine noon stocked 1 (-5) None)) = None /\
  option_map (@Inventory.quantity Q)
             (lot_of (fst (sell_medicine noon stocked 1 (-5) None)) 1) = Some 105 /\
  map (@Sales.quantity Q) (sales (fst (sell_medicine noon stocked 1 (-5) None))) = [-5].
Proof. vm_compute. repeat split. discriminate. Qed.

(** C4 at the sale of -5 from the lot of 100, which leaves 105. *)
Lemma sell_nonpositive_witness :
  let lot := Inventory.mk 1 1 100 47117 (2 # 1)%Q (5 # 1)%Q 20000 in
  lot_of stocked 1 = Some lot /\ -5 <= 0 /\
  -5 <= Inventory.quantity lot /\ sale_in_range lot (-5) = true /\
  exists db' lot' sale,
    sell_medicine noon stocked 1 (-5) None =
      (db', Returned (true, Sold (-5) "" (mul (-5) (Inventory.selling_price lot)))) /\
    sell_failure (snd (sell_medicine noon stocked 1 (-5) None)) = None /\
    lot_of db' 1 = Some lot' /\
    Inventory.quantity lot' = Inventory.quantity lot - -5 /\
    Inventory.quantity lot <= Inventory.quantity lot' /\
    sales db' = sales stocked ++ [sale] /\
    Sales.inventory_id sale = 1 /\
    Sales.quantity sale = -5.
Proof.
  intros lot. split; [reflexivity |]. split; [lia |].
  split; [simpl; lia |]. split; [reflexivity |].
  apply (proj1 (@sell_nonpositive Q rational_prices rational_values
                  noon stocked 1 (-5) None lot eq_refl ltac:(lia))).
  - simpl. lia.
  - reflexivity.
Defined.

(** C5: a lot of -5 units at negative prices is created for medicine 1,
    and likewise for a medicine 999 that the catalog does not have. *)
Lemma negative_lot_accepted :
  In 1 (map Medicines.id (medicines stocked)) /\
  add_to_inventory noon stocked 1 (-5) "2099-01-01" (-2 # 1)%Q (-5 # 1)%Q =
    ({| medicines := medicines stocked;
        inventory := inventory stocked ++
          [Inventory.mk 2 1 (-5) 47117 (-2 # 1)%Q (-5 # 1)%Q 20000];
        sales := [] |},
     Returned 2) /\
  ~ In 999 (map Medicines.id (medicines stocked)) /\
  snd (add_to_inventory noon stocked 999 (-5) "2099-01-01" (-2 # 1)%Q (-5 # 1)%Q) =
    Returned 2.
Proof.
  split; [left; reflexivity |]. split; [reflexivity |].
  split; [| reflexivity]. simpl. intros [H | []]. discriminate.
Qed.

Lemma add_to_inventory_checks_date_only_witness :
  (Strptime.ascii_text "2099-02-30" = true /\
   Strptime.strptime "2099-02-30" = None /\
   add_to_inventory noon stocked 1 5 "2099-02-30" (2 # 1)%Q (5 # 1)%Q =
     (stocked, Raised ValueError)) /\
  (In 1 (map Medicines.id (medicines stocked)) /\
   lot_in_range 1 (-5) (-2 # 1)%Q (-5 # 1)%Q = true /\
   Strptime.strptime "2099-01-01" = Some 47117 /\
   exists lot_id,
     add_to_inventory noon stocked 1 (-5) "2099-01-01" (-2 # 1)%Q (-5 # 1)%Q =
       ({| medicines := medicines stocked;
           inventory := inventory stocked ++
             [Inventory.mk lot_id 1 (-5) 47117 (-2 # 1)%Q (-5 # 1)%Q (today noon)];
           sales := sales stocked |},
        Returned lot_id) /\
     ~ In lot_id (map (@Inventory.id Q) (inventory stocked)) /\
     add_failure (snd (add_to_inventory noon stocked 1 (-5) "2099-01-01"
                                        (-2 # 1)%Q (-5 # 1)%Q)) = None).
Proof.
  split.
  - split; [reflexivity |]. split; [reflexivity |].
    apply (proj1 (@add_to_inventory_checks_date_only Q rational_values
                    noon stocked 1 5 "2099-02-30" (2 # 1)%Q (5 # 1)%Q)).
    + reflexivity.
    + reflexivity.
  - split; [left; reflexivity |]. split; [reflexivity |].
    split; [reflexivity |].
    apply (proj2 (@add_to_inventory_checks_date_only Q rational_values
                    noon stocked 1 (-5) "2099-01-01" (-2 # 1)%Q (-5 # 1)%Q)
                 47117).
    + left; reflexivity.
    + reflexivity.
    + reflexivity.
Defined.


(** C8: at noon, of two lots that expire in 5 days, the one whose medicine is
    not in the catalog is not listed, and the other is listed with 4 days
    remaining. *)
Lemma expiring_lot_missed :
  run (fresh [paracetamol])
      [(noon, AddLot 999 10 "2024-10-09" (2 # 1)%Q (5 # 1)%Q);
       (noon, AddLot 1 0 "2024-10-09" (2 # 1)%Q (5 # 1)%Q)] = two_lots /\
  map (fun i => Inventory.expiry_date i - today noon) (inventory two_lots) = [5; 5] /\
  get_expiring_medicines noon two_lots (Some 5) =
    [{| exp_name := "Paracetamol"; exp_quantity := 0;
        exp_expiry_date := today noon + 5; days_remaining := 4 |}].
Proof. vm_compute. repeat split. Qed.

(** C8 on the same two lots, at noon of 2024-10-04 and for 5 days: one
    row, of the lot that holds 0. *)
Lemma expiring_rows_witness :
  Calendar.first_day <= today noon /\
  today noon + 5 <= Calendar.last_day /\
  Permutation (map exp_lot (get_expiring_medicines noon two_lots (Some 5)))
              [("Paracetamol", 0, today noon + 5)] /\
  (forall row, In row (get_expiring_medicines noon two_lots (Some 5)) ->
      today noon <= exp_expiry_date row <= today noon + 5).
Proof.
  assert (H1 : Calendar.first_day <= today noon) by (vm_compute; discriminate).
  assert (H2 : today noon + 5 <= Calendar.last_day) by (vm_compute; discriminate).
  split; [exact H1 |]. split; [exact H2 |].
  destruct (@expiring_rows Q noon two_lots (Some 5) H1 H2) as (Hp & _ & Hw & _).
  split; [exact Hp | exact Hw].
Defined.
(** C9: two records with the same name, loaded into an empty catalog, give
    two rows with that name. *)
Theorem load_keeps_same_name_twice :
  map (fun m => (Medicines.id m, Medicines.name m, Medicines.company m))
      (medicines (fst (load_medicine_data (Some same_name_twice) (empty_db Q)))) =
    [(1, "Paracetamol", Some "Acme"); (2, "Paracetamol", Some "Zenith")] /\
  snd (load_medicine_data (Some same_name_twice) (empty_db Q)) = Returned tt.
Proof. vm_compute. split; reflexivity. Qed.

(** C2 on the lot of 100: 180 asked for, and a lot 7 that does not exist. *)
Lemma sell_failure_no_effect_witness :
  (lot_of stocked 1 = Some (Inventory.mk 1 1 100 47117 (2 # 1)%Q (5 # 1)%Q 20000) /\
   100 < 180 /\
   sell_medicine noon stocked 1 180 None = (stocked, Returned (false, Not_enough_stock)) /\
   sell_failure (snd (sell_medicine noon stocked 1 180 None)) = Some InsufficientStock) /\
  (int64 7 /\
   ~ In 7 (map (@Inventory.id Q) (inventory stocked)) /\
   sell_medicine noon stocked 7 1 None =
     (stocked, Returned (false, Inventory_item_not_found)) /\
   sell_failure (snd (sell_medicine noon stocked 7 1 None)) = Some NotFound).
Proof.
  assert (Hno : ~ In 7 (map (@Inventory.id Q) (inventory stocked))).
  { simpl. intros [H | []]. discriminate. }
  split.
  - split; [reflexivity |]. split; [lia |].
    apply (proj1 (@sell_failure_no_effect Q rational_prices noon stocked 1 180 None)
                 (Inventory.mk 1 1 100 47117 (2 # 1)%Q (5 # 1)%Q 20000)).
    + reflexivity.
    + simpl. lia.
  - assert (Hid : int64 7) by (unfold int64; lia).
    split; [exact Hid |]. split; [exact Hno |].
    apply (proj2 (@sell_failure_no_effect Q rational_prices noon stocked 7 1 None)).
    + exact Hid.
    + exact Hno.
Defined.

(** C10 on the scenario's sale and on the creation of its lot. *)
Lemma writers_frame_witness :
  (medicines (fst (sell_medicine noon stocked 1 30 (Some "Alice"))) = medicines stocked /\
   (exists sale,
       sales (fst (sell_medicine noon stocked 1 30 (Some "Alice"))) =
       sales stocked ++ [sale]) /\
   Forall2 (fun old new =>
              (Inventory.id old <> 1 -> new = old) /\
              new = Inventory.set_quantity (Inventory.quantity new) old)
           (inventory stocked)
           (inventory (fst (sell_medicine noon stocked 1 30 (Some "Alice"))))) /\
  (medicines stocked = medicines (fresh (R := Q) [paracetamol]) /\
   sales stocked = sales (fresh (R := Q) [paracetamol]) /\
   exists lot, inventory stocked = inventory (fresh [paracetamol]) ++ [lot] /\
               Inventory.id lot = 1).
Proof.
  split.
  - apply (proj1 (@writers_frame Q rational_prices noon stocked)
                 1 30 (Some "Alice") _ (Sold 30 "Alice" (150 # 1)%Q)).
    reflexivity.
  - apply (proj2 (@writers_frame Q rational_prices noon (fresh [paracetamol]))
                 1 100 "2099-01-01" (2 # 1)%Q (5 # 1)%Q stocked 1).
    reflexivity.
Defined.

(** A lot of 5 that expires in 5 days is LOW, not NEAR_EXPIRY; a lot of 50
    with the same date is NEAR_EXPIRY; a lot of 0 is not listed; the rows
    come by expiry date. *)
Example low_before_near_expiry :
  let db := {| medicines := [paracetamol];
               inventory := [Inventory.mk 1 1 50 47117 (2 # 1)%Q (5 # 1)%Q 20000;
                             Inventory.mk 2 1 50 20005 (2 # 1)%Q (5 # 1)%Q 20000;
                             Inventory.mk 3 1 0 20001 (2 # 1)%Q (5 # 1)%Q 20000;
                             Inventory.mk 4 1 5 20005 (2 # 1)%Q (5 # 1)%Q 20000];
               sales := [] |} in
  map (fun r => (item_id r, item_status r)) (get_inventory noon db None) =
    [(2, NEAR_EXPIRY); (4, LOW); (1, OK)].
Proof. vm_compute. reflexivity. Qed.

(* ================================================================= *)
(** ** Searching the catalog *)

Module LikeFacts.
Import Like.

Lemma like_percent (s : string) : like "%" s = true.
Proof.
  induction s as [|c s IH]; [reflexivity |].
  simpl in *. exact IH.
Qed.

(** A leading [%] lets the rest of the pattern start anywhere. *)
Lemma like_after_percent (p s : string) :
  like (String "%" p) s = true <->
  exists before rest, s = (before ++ rest)%string /\ like p rest = true.
Proof.
  induction s as [|c s IH].
  - simpl. rewrite orb_false_r. split.
    + intros H. exists EmptyString, EmptyString. split; [reflexivity | exact H].
    + intros (before & rest & Heq & H).
      destruct before; [| discriminate]. simpl in Heq. subst rest. exact H.
  - change (like (String "%" p) (String c s))
      with (like p (String c s) || like (String "%" p) s).
    rewrite orb_true_iff, IH. split.
    + intros [H | (before & rest & -> & H)].
      * exists EmptyString, (String c s). split; [reflexivity | exact H].
      * exists (String c before), rest. split; [reflexivity | exact H].
    + intros (before & rest & Heq & H). destruct before as [|b before].
      * simpl in Heq. subst rest. left. exact H.
      * simpl in Heq. injection Heq as -> ->. right. exists before, rest. auto.
Qed.

(** A text without wildcard matches, character for character and up to
    case, the start of the string. *)
Lemma like_literal (q : string) : forall p s,
  literal q = true ->
  (like (q ++ p) s = true <->
   exists found rest,
     s = (found ++ rest)%string /\ fold_case found = fold_case q /\
     like p rest = true).
Proof.
  induction q as [|c q IH]; intros p s Hq.
  - simpl. split.
    + intros H. exists EmptyString, s. auto.
    + intros (found & rest & -> & Hf & H).
      destruct found; [exact H | discriminate].
  - simpl in Hq. rewrite !andb_true_iff, !negb_true_iff in Hq.
    destruct Hq as [[Hc1 Hc2] Hq]. simpl. rewrite Hc1, Hc2.
    destruct s as [|d s].
    + split; [discriminate |].
      intros (found & rest & Heq & Hf & _).
      destruct found; [discriminate | discriminate].
    + rewrite andb_true_iff, (IH p s Hq). split.
      * intros [Hcd (found & rest & -> & Hf & H)].
        exists (String d found), rest. split; [reflexivity |].
        split; [| exact H]. simpl. apply Ascii.eqb_eq in Hcd. congruence.
      * intros (found & rest & Heq & Hf & H).
        destruct found as [|d' found]; [discriminate |].
        simpl in Heq, Hf. injection Heq as -> ->. injection Hf as Hd Hf.
        split; [apply Ascii.eqb_eq; congruence |].
        exists found, rest. auto.
Qed.

End LikeFacts.

Section SearchFacts.
Context {R : Type} {P : PriceOps R}.
Implicit Types (db : DB R).

Lemma in_search_medicine db (name : string) (m : Medicines.row) :
  In m (search_medicine db name) <->
  In m (medicines db) /\
  Like.like ("%" ++ name ++ "%") (Medicines.name m) = true.
Proof.
  unfold search_medicine. rewrite order_by_In, filter_In. reflexivity.
Qed.

(** X1. Whatever is searched for, [search_medicine] returns rows of the
    catalog in ascending order of name; searching for the empty text returns
    the whole catalog, each row once. *)
Theorem search_medicine_lists_catalog db :
  (forall name,
      incl (search_medicine db name) (medicines db) /\
      Sorted (fun a b => String.leb (Medicines.name a) (Medicines.name b) = true)
             (search_medicine db name)) /\
  Permutation (search_medicine db "") (medicines db).
Proof.
  split.
  - intros name. split.
    + intros m Hm. apply in_search_medicine in Hm. tauto.
    + unfold search_medicine. apply order_by_sorted.
      intros a b. apply String.leb_total.
  - unfold search_medicine.
    eapply perm_trans; [apply order_by_perm |].
    rewrite forallb_filter_id; [apply Permutation_refl |].
    apply forallb_forall. intros m _.
    change ("%" ++ "" ++ "%")%string with (String "%" "%").
    apply LikeFacts.like_after_percent.
    exists EmptyString, (Medicines.name m). split; [reflexivity |].
    apply LikeFacts.like_percent.
Qed.

(** X2. When the text searched for has no [%], no [_] and no NUL, and
    makes a pattern of no more than 50000 bytes, a medicine whose name has
    no NUL is returned exactly when it is in the catalog and the text
    occurs in its name, the case of ASCII letters apart. *)
Theorem search_medicine_finds_substring db (name : string) (m : Medicines.row) :
  Like.literal name = true ->
  Like.no_nul name = true ->
  Z.of_nat (String.length name) + 2 <= Like.max_pattern_length ->
  Like.no_nul (Medicines.name m) = true ->
  (In m (search_medicine db name) <->
   In m (medicines db) /\ occurs_in name (Medicines.name m)).
Proof.
  intros Hlit _ _ _. rewrite in_search_medicine.
  change ("%" ++ name ++ "%")%string with (String "%" (name ++ "%")).
  rewrite LikeFacts.like_after_percent. unfold occurs_in.
  split; intros [Hin H]; (split; [exact Hin |]).
  - destruct H as (before & rest & Heq & H).
    apply (LikeFacts.like_literal name "%" rest Hlit) in H.
    destruct H as (found & after & -> & Hf & _).
    exists before, found, after. auto.
  - destruct H as (before & found & after & Heq & Hf).
    exists before, (found ++ after)%string. split; [exact Heq |].
    apply (LikeFacts.like_literal name "%" _ Hlit).
    exists found, after. split; [reflexivity |]. split; [exact Hf |].
    apply LikeFacts.like_percent.
Qed.

End SearchFacts.

(* ================================================================= *)
(** ** The schema after [create_tables] *)

Module SchemaFacts.
Import Schema.

Local Ltac fin :=
  repeat rewrite <- app_assoc; simpl; rewrite ?app_nil_r;
  repeat split; solve [reflexivity | left; assumption | right; left; reflexivity].

Lemma add_if_missing_cases (existing : list string) (c : string)
    (columns columns' : list string) :
  add_if_missing existing c columns = Some columns' ->
  (existsb (String.eqb c) existing = true /\ columns' = columns) \/
  (existsb (String.eqb c) existing = false /\ columns' = columns ++ [c]).
Proof.
  unfold add_if_missing, add_column.
  destruct (existsb (String.eqb c) existing); [intros H; injection H; auto |].
  destruct (existsb _ columns); [discriminate |].
  intros H; injection H; auto.
Qed.

Lemma add_if_missing_present (existing : list string) (c : string)
    (columns : list string) :
  existsb (String.eqb c) existing = true ->
  add_if_missing existing c columns = Some columns.
Proof. unfold add_if_missing. intros ->. reflexivity. Qed.

Lemma has_column_app (c : string) (l l' : list string) :
  existsb (String.eqb c) l = true \/ In c l' ->
  existsb (String.eqb c) (l ++ l') = true.
Proof.
  rewrite existsb_app, orb_true_iff. intros [H | H]; [left; exact H | right].
  apply existsb_exists. exists c. split; [exact H | apply String.eqb_refl].
Qed.

(** X3. When [create_tables] runs to its end, the [sales] table has the
    columns [sale_time], [customer_name] and [total_amount] that
    [get_sales_report] looks for, whatever columns it had; the columns a table
    had are kept, in place, the new ones coming after them; and running
    [create_tables] again changes nothing. *)
Theorem create_tables_migrates (s s' : t) :
  create_tables s = (s', true) ->
  (exists columns, sales_table s' = Some columns /\ new_format columns = true) /\
  (forall old, sales_table s = Some old ->
     exists added, sales_table s' = Some (old ++ added)) /\
  (forall old, medicines_table s = Some old -> medicines_table s' = Some old) /\
  (forall old, inventory_table s = Some old -> inventory_table s' = Some old) /\
  create_tables s' = (s', true).
Proof.
  unfold create_tables.
  set (sales := create_table_if_not_exists sales_columns (sales_table s)).
  destruct (add_if_missing sales "customer_name" sales) as [sales1|] eqn:E1;
    [| discriminate].
  destruct (add_if_missing sales "sale_time" sales1) as [sales2|] eqn:E2;
    [| discriminate].
  destruct (add_if_missing sales "total_amount" sales2) as [sales3|] eqn:E3;
    [| discriminate].
  intros H. injection H as <-. simpl.
  apply add_if_missing_cases in E1, E2, E3.
  assert (Hext : exists a1 a2 a3,
             sales3 = sales ++ a1 ++ a2 ++ a3 /\
             (existsb (String.eqb "customer_name") sales = true \/ In "customer_name" a1) /\
             (existsb (String.eqb "sale_time") sales = true \/ In "sale_time" a2) /\
             (existsb (String.eqb "total_amount") sales = true \/ In "total_amount" a3)).
  { destruct E1 as [[H1 ->] | [H1 ->]], E2 as [[H2 ->] | [H2 ->]],
             E3 as [[H3 ->] | [H3 ->]].
    - exists [], [], []. fin.
    - exists [], [], ["total_amount"]. fin.
    - exists [], ["sale_time"], []. fin.
    - exists [], ["sale_time"], ["total_amount"]. fin.
    - exists ["customer_name"], [], []. fin.
    - exists ["customer_name"], [], ["total_amount"]. fin.
    - exists ["customer_name"], ["sale_time"], []. fin.
    - exists ["customer_name"], ["sale_time"], ["total_amount"]. fin. }
  destruct Hext as (a1 & a2 & a3 & -> & Hc & Ht & Ha).
  assert (Hc' : existsb (String.eqb "customer_name") (sales ++ a1 ++ a2 ++ a3) = true).
  { apply has_column_app. destruct Hc as [Hc | Hc]; [left; exact Hc | right].
    apply in_or_app. left. exact Hc. }
  assert (Ht' : existsb (String.eqb "sale_time") (sales ++ a1 ++ a2 ++ a3) = true).
  { apply has_column_app. destruct Ht as [Ht | Ht]; [left; exact Ht | right].
    apply in_or_app. right. apply in_or_app. left. exact Ht. }
  assert (Ha' : existsb (String.eqb "total_amount") (sales ++ a1 ++ a2 ++ a3) = true).
  { apply has_column_app. destruct Ha as [Ha | Ha]; [left; exact Ha | right].
    apply in_or_app. right. apply in_or_app. right. exact Ha. }
  split; [| split; [| split; [| split]]].
  - eexists. split; [reflexivity |]. unfold new_format. rewrite Hc', Ht', Ha'. reflexivity.
  - intros old Hold. subst sales. rewrite Hold. simpl. eexists. reflexivity.
  - intros old Hold. rewrite Hold. reflexivity.
  - intros old Hold. rewrite Hold. reflexivity.
  - rewrite !add_if_missing_present by assumption. reflexivity.
Qed.

End SchemaFacts.

(* ================================================================= *)
(** ** What a load puts in the catalog *)

Lemma first_ids_S (n : nat) : first_ids (S n) = first_ids n ++ [Z.of_nat (S n)].
Proof. unfold first_ids. rewrite seq_S, map_app. reflexivity. Qed.

Lemma fold_max_In (i : Z) (l : list Z) : In (fold_right Z.max i l) (i :: l).
Proof.
  induction l as [|k l IH]; simpl; [auto |].
  destruct (Z.max_spec k (fold_right Z.max i l)) as [[_ ->] | [_ ->]].
  - destruct IH as [IH | IH]; auto.
  - auto.
Qed.

(** After the ids 1 .. n comes n + 1. *)
Lemma next_rowid_first_ids (n : nat) : next_rowid (first_ids n) = Z.of_nat (S n).
Proof.
  destruct n as [|n]; [reflexivity |].
  assert (Hin : In (Z.of_nat (S n)) (first_ids (S n))).
  { rewrite first_ids_S. apply in_or_app. right. left. reflexivity. }
  assert (Hle : forall j, In j (first_ids (S n)) -> j <= Z.of_nat (S n)).
  { unfold first_ids. intros j Hj. apply in_map_iff in Hj.
    destruct Hj as (k & <- & Hk). apply in_seq in Hk. lia. }
  pose proof (next_rowid_above _ _ Hin) as Habove.
  unfold next_rowid in *. destruct (first_ids (S n)) as [|i l] eqn:E; [destruct Hin |].
  pose proof (fold_max_In i l) as Hmax. apply Hle in Hmax. lia.
Qed.

Lemma load_loop_all (meds : list json_object) : forall rows : list Medicines.row,
  (forall med, In med meds -> dict_lookup "name" med <> None) ->
  exists added,
    load_loop meds rows = (rows ++ added, Returned tt) /\
    map Medicines.name added = record_names meds /\
    (map Medicines.id rows = first_ids (List.length rows) ->
     map Medicines.id (rows ++ added) = first_ids (List.length (rows ++ added))).
Proof.
  induction meds as [|med meds IH]; intros rows Hkeys.
  - exists []. rewrite app_nil_r. repeat split; auto.
  - simpl. destruct (dict_lookup "name" med) as [name|] eqn:Hname.
    2:{ exfalso. apply (Hkeys med); [left; reflexivity | exact Hname]. }
    assert (Hrest : forall med', In med' meds -> dict_lookup "name" med' <> None)
      by (intros med' Hin; apply Hkeys; right; exact Hin).
    destruct name as [n|]; simpl.
    + destruct (IH (rows ++ [Medicines.mk (next_rowid (map Medicines.id rows)) n
                               (dict_get med "generic_name") (dict_get med "type")
                               (dict_get med "power") (dict_get med "company")
                               (dict_get med "price")]) Hrest)
        as (added & Hrun & Hnames & Hids).
      eexists (_ :: added). rewrite <- app_assoc in Hrun, Hids. simpl in Hrun, Hids.
      split; [exact Hrun |]. split; [simpl; rewrite Hnames; reflexivity |].
      intros Hrows. apply Hids.
      rewrite map_app, length_app, Nat.add_comm. simpl.
      rewrite first_ids_S, Hrows, next_rowid_first_ids. reflexivity.
    + destruct (IH rows Hrest) as (added & Hrun & Hnames & Hids).
      exists added. auto.
Qed.

Lemma load_loop_app (before after : list json_object) :
  forall rows rows' : list Medicines.row,
  load_loop before rows = (rows', Returned tt) ->
  load_loop (before ++ after) rows = load_loop after rows'.
Proof.
  induction before as [|med before IH]; intros rows rows' Hrun; simpl in *.
  - injection Hrun as ->. reflexivity.
  - destruct (dict_lookup "name" med); [| discriminate]. apply IH, Hrun.
Qed.

(** The loop stops at the first record without a name, with the rows of
    the records before it. *)
Lemma load_loop_KeyError (before after : list json_object) (bad : json_object)
    (rows : list Medicines.row) :
  (forall med, In med before -> dict_lookup "name" med <> None) ->
  dict_lookup "name" bad = None ->
  exists added,
    load_loop (before ++ bad :: after) rows = (rows ++ added, Raised KeyError) /\
    map Medicines.name added = record_names before /\
    (map Medicines.id rows = first_ids (List.length rows) ->
     map Medicines.id (rows ++ added) = first_ids (List.length (rows ++ added))).
Proof.
  intros Hkeys Hbad.
  destruct (load_loop_all before rows Hkeys) as (added & Hrun & Hnames & Hids).
  exists added. split; [| split; assumption].
  rewrite load_loop_app with (rows' := rows ++ added) by exact Hrun.
  simpl. rewrite Hbad. reflexivity.
Qed.

Section LoadFacts.
Context {R : Type} {P : PriceOps R}.

(** X4. Into an empty catalog, [load_medicine_data] puts one row for each
    record of the file whose name is not [null], in the order of the file,
    under the ids 1, 2, ...; lots and sales are untouched; and a second
    load, of any file, then leaves the catalog as it is when the first one
    put a row in it.  If a record has no [name] key the call raises
    [KeyError] at the first such record: the records before it have their
    rows, uncommitted, where the later statements of the connection read
    them, and no later record has one. *)
Theorem load_fills_empty_catalog (db : DB R) (meds : list json_object) :
  medicines db = [] ->
  ((forall med, In med meds -> dict_lookup "name" med <> None) ->
   exists db',
     load_medicine_data (Some meds) db = (db', Returned tt) /\
     map Medicines.name (medicines db') = record_names meds /\
     map Medicines.id (medicines db') = first_ids (List.length (medicines db')) /\
     inventory db' = inventory db /\ sales db' = sales db /\
     (record_names meds <> [] ->
      forall again, load_medicine_data again db' = (db', Returned tt))) /\
  (forall before bad after,
     meds = before ++ bad :: after ->
     (forall med, In med before -> dict_lookup "name" med <> None) ->
     dict_lookup "name" bad = None ->
     exists db',
       load_medicine_data (Some meds) db = (db', Raised KeyError) /\
       map Medicines.name (medicines db') = record_names before /\
       map Medicines.id (medicines db') = first_ids (List.length (medicines db')) /\
       inventory db' = inventory db /\ sales db' = sales db).
Proof.
  intros Hempty. unfold load_medicine_data at 1 3. rewrite Hempty. simpl. split.
  - intros Hkeys. destruct (load_loop_all meds [] Hkeys) as (added & Hrun & Hnames & Hids).
    simpl in Hrun, Hids. rewrite Hrun. eexists. split; [reflexivity |]. simpl.
    split; [exact Hnames |]. split; [apply Hids; reflexivity |].
    split; [reflexivity |]. split; [reflexivity |].
    intros Hsome again. unfold load_medicine_data. simpl.
    destruct added as [|m added]; [simpl in Hnames; congruence |]. reflexivity.
  - intros before bad after -> Hkeys Hbad.
    destruct (load_loop_KeyError before after bad [] Hkeys Hbad)
      as (added & Hrun & Hnames & Hids).
    simpl in Hrun, Hids. rewrite Hrun. eexists. split; [reflexivity |]. simpl.
    split; [exact Hnames |]. split; [apply Hids; reflexivity |].
    split; reflexivity.
Qed.

(** X5. main.py's [load_medicine_data] has no test of the rows present: each
    call appends one row for every record whose name is not [null], after
    the rows the catalog has, so that the same file loaded at two starts
    is in the catalog twice. *)
Theorem main_load_appends (db : MainPy.DB R) (meds : list json_object) :
  (forall med, In med meds -> dict_lookup "name" med <> None) ->
  exists added added',
    map Medicines.name added = record_names meds /\
    map Medicines.name added' = record_names meds /\
    MainPy.load_medicine_data (Some meds) db =
      ({| MainPy.medicines := MainPy.medicines db ++ added;
          MainPy.inventory := MainPy.inventory db;
          MainPy.sales := MainPy.sales db |}, Returned tt) /\
    MainPy.medicines
      (fst (MainPy.load_medicine_data (Some meds)
              (fst (MainPy.load_medicine_data (Some meds) db)))) =
      MainPy.medicines db ++ added ++ added'.
Proof.
  intros Hkeys.
  destruct (load_loop_all meds (MainPy.medicines db) Hkeys) as (added & Hrun & Hnames & _).
  destruct (load_loop_all meds (MainPy.medicines db ++ added) Hkeys)
    as (added' & Hrun' & Hnames' & _).
  exists added, added'. split; [exact Hnames |]. split; [exact Hnames' |].
  unfold MainPy.load_medicine_data. rewrite Hrun. simpl. rewrite Hrun'. simpl.
  split; [reflexivity | rewrite <- app_assoc; reflexivity].
Qed.

End LoadFacts.

(* ================================================================= *)
(** ** main.py beside app.py *)

Section VariantFacts.
Context {R : Type} {P : PriceOps R}.

Lemma insert_row_map {A B : Type} (f : A -> B) (le : A -> A -> bool)
    (le' : B -> B -> bool) (x : A) (l : list A) :
  (forall a b, le' (f a) (f b) = le a b) ->
  map f (insert_row le x l) = insert_row le' (f x) (map f l).
Proof.
  intros Hle. induction l as [|y l IH]; simpl; [reflexivity |].
  rewrite Hle. destruct (le x y); simpl; [reflexivity | rewrite IH; reflexivity].
Qed.

Lemma order_by_map {A B : Type} (f : A -> B) (le : A -> A -> bool)
    (le' : B -> B -> bool) (l : list A) :
  (forall a b, le' (f a) (f b) = le a b) ->
  map f (order_by le l) = order_by le' (map f l).
Proof.
  intros Hle. induction l as [|x l IH]; simpl; [reflexivity |].
  rewrite (insert_row_map f le le' _ _ Hle), IH. reflexivity.
Qed.

(** X6. On the same medicines and lots, app.py's [get_inventory] returns the
    rows of main.py's, sorted by expiry date, rows of one date staying in
    main.py's order. *)
Theorem get_inventory_sorts_main (clk : Clock) (db : DB R) (old : MainPy.DB R)
    (low_stock_threshold : option Z) :
  MainPy.medicines old = medicines db ->
  MainPy.inventory old = inventory db ->
  get_inventory clk db low_stock_threshold =
  order_by (fun a b => item_expiry_date a <=? item_expiry_date b)
           (MainPy.get_inventory clk old low_stock_threshold).
Proof.
  intros Hm Hi. unfold get_inventory, MainPy.get_inventory, inventory_medicines.
  rewrite Hm, Hi. apply order_by_map. intros [i m] [i' m']. reflexivity.
Qed.

(** X7. main.py's [sell_medicine] raises [TypeError], and changes nothing,
    when no lot has the id, a 64-bit integer; app.py's returns "Inventory
    item not found" there.  On a lot that exists the two agree: both
    refuse, or, the sale being in range, both sell, leave the same lots and
    record the same lot, quantity, price and date. *)
Theorem main_sell_medicine_differs_on_missing_lot {V : RealValue R}
    (clk : Clock) (db : DB R)
    (old : MainPy.DB R) (inventory_id quantity : Z) (customer_name : option string) :
  MainPy.inventory old = inventory db ->
  (int64 inventory_id ->
   lot_of db inventory_id = None ->
   MainPy.sell_medicine clk old inventory_id quantity = (old, Raised TypeError) /\
   sell_medicine clk db inventory_id quantity customer_name =
     (db, Returned (false, Inventory_item_not_found))) /\
  (forall lot, lot_of db inventory_id = Some lot ->
     (Inventory.quantity lot < quantity ->
      MainPy.sell_medicine clk old inventory_id quantity =
        (old, Returned (false, MainPy.Not_enough_stock)) /\
      sell_medicine clk db inventory_id quantity customer_name =
        (db, Returned (false, Not_enough_stock))) /\
     (quantity <= Inventory.quantity lot ->
      sale_in_range lot quantity = true ->
      exists old' db' sale sale',
        MainPy.sell_medicine clk old inventory_id quantity =
          (old', Returned (true, MainPy.Sold quantity
                                   (mul quantity (Inventory.selling_price lot)))) /\
        sell_medicine clk db inventory_id quantity customer_name =
          (db', Returned (true, Sold quantity (with_default "" customer_name)
                                     (mul quantity (Inventory.selling_price lot)))) /\
        MainPy.inventory old' = inventory db' /\
        MainPy.medicines old' = MainPy.medicines old /\
        MainPy.sales old' = MainPy.sales old ++ [sale] /\
        sales db' = sales db ++ [sale'] /\
        MainPy.inventory_id sale = Sales.inventory_id sale' /\
        MainPy.quantity sale = Sales.quantity sale' /\
        MainPy.sale_price sale = Sales.sale_price sale' /\
        MainPy.sale_date sale = Sales.sale_date sale')).
Proof.
  intros Hi. split.
  - intros _ Hnone. rewrite sell_medicine_missing by exact Hnone.
    split; [| reflexivity].
    unfold lot_of, inventory_where_id in Hnone. unfold MainPy.sell_medicine.
    rewrite Hi. destruct (filter _ (inventory db)); [reflexivity | discriminate].
  - intros lot Hlot.
    rewrite sell_medicine_found with (lot := lot) by exact Hlot.
    unfold lot_of, inventory_where_id in Hlot. unfold MainPy.sell_medicine.
    rewrite Hi. destruct (filter _ (inventory db)) as [|i l]; [discriminate |].
    simpl in Hlot. injection Hlot as ->. simpl.
    destruct (Z.ltb_spec (Inventory.quantity lot) quantity) as [Hlt | Hge].
    + split; [intros _; split; reflexivity | lia].
    + split; [lia |]. intros _ _. eexists _, _, _, _.
      repeat split; reflexivity.
Qed.

End VariantFacts.

(* ================================================================= *)
(** ** What every sequence of operations keeps *)

Section HistoryFacts.
Context {R : Type} {P : PriceOps R}.
Implicit Types (db : DB R) (lot : Inventory.row R) (clk : Clock).

(** The three things an operation can do: nothing, add a lot, sell. *)
Lemma step_cases db (c : Clock * operation) :
  step db c = db \/
  (exists m q e pp sp expiry,
      Strptime.strptime e = Some expiry /\ snd c = AddLot m q e pp sp /\
      step db c = after_add db (new_lot (fst c) db m q expiry pp sp)) \/
  (exists k q n lot,
      lot_of db k = Some lot /\ q <= Inventory.quantity lot /\
      step db c = after_sale db k q (sale_record (fst c) db k q n lot)).
Proof.
  destruct c as [clk [m q e pp sp | k q n]]; unfold step; simpl.
  - destruct (Strptime.strptime e) as [expiry|] eqn:He.
    + right. left. exists m, q, e, pp, sp, expiry.
      rewrite add_to_inventory_parsed with (expiry := expiry) by exact He. auto.
    + left. rewrite add_to_inventory_malformed by exact He. reflexivity.
  - destruct (lot_of db k) as [lot|] eqn:Hlot.
    + rewrite sell_medicine_found with (lot := lot) by exact Hlot.
      destruct (Z.ltb_spec (Inventory.quantity lot) q); [left; reflexivity |].
      right. right. exists k, q, n, lot. auto.
    + left. rewrite sell_medicine_missing by exact Hlot. reflexivity.
Qed.

Lemma run_keeps (I : DB R -> Prop) (ops : list (Clock * operation)) :
  (forall db c, I db -> I (step db c)) -> forall db, I db -> I (run db ops).
Proof.
  intros Hstep. induction ops as [|c ops IH]; intros db H; simpl; auto.
Qed.

Lemma run_app db (ops1 ops2 : list (Clock * operation)) :
  run db (ops1 ++ ops2) = run (run db ops1) ops2.
Proof. unfold run. apply fold_left_app. Qed.

Lemma lot_of_app_fresh (rows : list (Inventory.row R)) lot (j : Z) :
  ~ In (Inventory.id lot) (map (@Inventory.id R) rows) ->
  fetchone (filter (fun i => Inventory.id i =? j) (rows ++ [lot])) =
  if Inventory.id lot =? j then Some lot
  else fetchone (filter (fun i => Inventory.id i =? j) rows).
Proof.
  intros Hfresh. rewrite filter_app. simpl.
  destruct (Z.eqb_spec (Inventory.id lot) j) as [Heq | Hne].
  - replace (filter (fun i => Inventory.id i =? j) rows) with (@nil (Inventory.row R));
      [reflexivity |].
    symmetry. induction rows as [|i l IH]; simpl; [reflexivity |].
    destruct (Z.eqb_spec (Inventory.id i) j) as [Hij | _].
    + exfalso. apply Hfresh. left. congruence.
    + apply IH. intros H. apply Hfresh. right. exact H.
  - rewrite app_nil_r. reflexivity.
Qed.

(** X8. For values in range, the id that [add_to_inventory] returns
    designates the lot it has just created, every other id designates what
    it did before, and a sale in range of no more than the quantity added
    can be made from the new lot at once, at its selling price. *)
Theorem added_lot_is_found {V : RealValue R} clk db (medicine_id quantity : Z)
    (expiry_date : string) (purchase_price selling_price : R) (expiry : Z) :
  Strptime.strptime expiry_date = Some expiry ->
  lot_in_range medicine_id quantity purchase_price selling_price = true ->
  exists lot_id db',
    add_to_inventory clk db medicine_id quantity expiry_date
                     purchase_price selling_price = (db', Returned lot_id) /\
    lot_of db' lot_id =
      Some (Inventory.mk lot_id medicine_id quantity expiry
                         purchase_price selling_price (today clk)) /\
    (forall j, j <> lot_id -> lot_of db' j = lot_of db j) /\
    (forall clk' q customer_name,
        q <= quantity ->
        sale_in_range (Inventory.mk lot_id medicine_id quantity expiry
                                    purchase_price selling_price (today clk)) q
          = true ->
        snd (sell_medicine clk' db' lot_id q customer_name) =
          Returned (true, Sold q (with_default "" customer_name)
                               (mul q selling_price))).
Proof.
  intros Hparse _.
  rewrite add_to_inventory_parsed with (expiry := expiry) by exact Hparse.
  eexists _, _. split; [reflexivity |].
  assert (Hfresh : ~ In (Inventory.id (new_lot clk db medicine_id quantity expiry
                                         purchase_price selling_price))
                        (map (@Inventory.id R) (inventory db)))
    by apply next_rowid_fresh.
  assert (Hfound : lot_of (after_add db (new_lot clk db medicine_id quantity expiry
                                           purchase_price selling_price))
                     (next_rowid (map (@Inventory.id R) (inventory db))) =
                   Some (new_lot clk db medicine_id quantity expiry
                                 purchase_price selling_price)).
  { unfold lot_of, inventory_where_id, after_add. simpl inventory.
    rewrite lot_of_app_fresh by exact Hfresh. simpl. rewrite Z.eqb_refl. reflexivity. }
  split; [exact Hfound |]. split.
  - intros j Hj. unfold lot_of, inventory_where_id, after_add. simpl inventory.
    rewrite lot_of_app_fresh by exact Hfresh. simpl.
    destruct (Z.eqb_spec (next_rowid (map (@Inventory.id R) (inventory db))) j);
      [congruence | reflexivity].
  - intros clk' q customer_name Hq _.
    rewrite sell_medicine_found with (lot := new_lot clk db medicine_id quantity expiry
                                               purchase_price selling_price)
      by exact Hfound.
    simpl. destruct (Z.ltb_spec quantity q); [lia | reflexivity].
Qed.

(** X9. Starting without lots and sales, after any sequence of operations
    the lots carry the ids 1, 2, ... in the order of their creation, and so
    do the sales: no id is skipped or used twice. *)
Theorem ids_count_up (catalog : list Medicines.row)
    (ops : list (Clock * operation)) :
  let db := run (fresh catalog) ops in
  map (@Inventory.id R) (inventory db) = first_ids (List.length (inventory db)) /\
  map (@Sales.id R) (sales db) = first_ids (List.length (sales db)).
Proof.
  apply (run_keeps
           (fun db => map (@Inventory.id R) (inventory db)
                        = first_ids (List.length (inventory db)) /\
                      map (@Sales.id R) (sales db)
                        = first_ids (List.length (sales db))));
    [| split; reflexivity].
  intros db c [Hlots Hsales].
  destruct (step_cases db c) as [-> | [H | H]]; [split; assumption | |].
  - destruct H as (m & q & e & pp & sp & expiry & _ & _ & ->). simpl.
    split; [| exact Hsales].
    rewrite map_app, length_app, Nat.add_comm. simpl.
    rewrite first_ids_S, Hlots, next_rowid_first_ids. reflexivity.
  - destruct H as (k & q & n & lot & _ & _ & ->). simpl. split.
    + unfold update_quantity. rewrite length_map, <- Hlots, map_map.
      apply map_ext. intros i. destruct (Inventory.id i =? k); reflexivity.
    + rewrite map_app, length_app, Nat.add_comm. simpl.
      rewrite first_ids_S, Hsales, next_rowid_first_ids. reflexivity.
Qed.

(** X10. Starting without lots and sales, after any sequence of operations
    every sale on record names a lot that exists, carries as [sale_price]
    the [selling_price] that lot has, and as [total_amount] its quantity
    times that price. *)
Theorem sales_match_their_lot (catalog : list Medicines.row)
    (ops : list (Clock * operation)) (s : Sales.row R) :
  In s (sales (run (fresh catalog) ops)) ->
  exists lot,
    In lot (inventory (run (fresh catalog) ops)) /\
    Inventory.id lot = Sales.inventory_id s /\
    Sales.sale_price s = Inventory.selling_price lot /\
    Sales.total_amount s = mul (Sales.quantity s) (Sales.sale_price s).
Proof.
  revert s.
  apply (run_keeps
           (fun db => forall s, In s (sales db) ->
              exists lot, In lot (inventory db) /\
                Inventory.id lot = Sales.inventory_id s /\
                Sales.sale_price s = Inventory.selling_price lot /\
                Sales.total_amount s = mul (Sales.quantity s) (Sales.sale_price s)));
    [| intros s []].
  intros db c Hinv.
  destruct (step_cases db c) as [-> | [H | H]]; [exact Hinv | |].
  - destruct H as (m & q & e & pp & sp & expiry & _ & _ & ->). simpl.
    intros s Hs. destruct (Hinv s Hs) as (lot & Hin & H).
    exists lot. split; [apply in_or_app; left; exact Hin | exact H].
  - destruct H as (k & q & n & lot & Hlot & _ & ->). simpl.
    assert (Hkept : forall l, In l (inventory db) ->
              exists l', In l' (update_quantity q k (inventory db)) /\
                Inventory.id l' = Inventory.id l /\
                Inventory.selling_price l' = Inventory.selling_price l).
    { intros l Hl. eexists. split; [apply in_map, Hl |].
      destruct (Inventory.id l =? k); split; reflexivity. }
    intros s Hs. apply in_app_or in Hs. destruct Hs as [Hs | [<- | []]].
    + destruct (Hinv s Hs) as (l & Hl & Hid & Hprice & Htotal).
      destruct (Hkept l Hl) as (l' & Hl' & Hid' & Hprice').
      exists l'. repeat split; congruence.
    + destruct (lot_of_In _ _ Hlot) as [Hl Hid].
      destruct (Hkept lot Hl) as (l' & Hl' & Hid' & Hprice').
      exists l'. simpl. repeat split; congruence.
Qed.

Lemma same_lot_refl lot : same_lot lot lot.
Proof. unfold same_lot. destruct lot; reflexivity. Qed.

Lemma same_lot_trans (a b c : Inventory.row R) :
  same_lot a b -> same_lot b c -> same_lot a c.
Proof. unfold same_lot. intros -> ->. reflexivity. Qed.

Lemma Forall2_same_lot_refl (l : list (Inventory.row R)) : Forall2 same_lot l l.
Proof. induction l; constructor; [apply same_lot_refl | assumption]. Qed.

(** X11. No operation rewrites history: after any sequence of operations on
    any database, the medicines are the same, the sales that were on record
    are still there, unchanged and in place, before the new ones, and so
    are the lots, each as it was but for its quantity. *)
Theorem history_is_kept db (ops : list (Clock * operation)) :
  medicines (run db ops) = medicines db /\
  (exists later, sales (run db ops) = sales db ++ later) /\
  (exists kept new,
      inventory (run db ops) = kept ++ new /\
      Forall2 same_lot (inventory db) kept).
Proof.
  revert db. induction ops as [|c ops IH]; intros db.
  - simpl. split; [reflexivity |]. split; [exists []; symmetry; apply app_nil_r |].
    exists (inventory db), []. split; [symmetry; apply app_nil_r |].
    apply Forall2_same_lot_refl.
  - simpl. destruct (IH (step db c)) as (Hm & (later & Hs) & (kept & new & Hi & Hk)).
    rewrite Hm, Hs, Hi. clear IH Hm Hs Hi.
    destruct (step_cases db c) as [Heq | [H | H]].
    + rewrite Heq in *. split; [reflexivity |]. split; [exists later; reflexivity |].
      exists kept, new. auto.
    + destruct H as (m & q & e & pp & sp & expiry & _ & _ & Heq). rewrite Heq in *.
      simpl in *. split; [reflexivity |]. split; [exists later; reflexivity |].
      apply Forall2_app_inv_l in Hk.
      destruct Hk as (kept1 & kept2 & Hk1 & _ & ->).
      exists kept1, (kept2 ++ new). split; [rewrite <- app_assoc; reflexivity | exact Hk1].
    + destruct H as (k & q & n & lot & _ & _ & Heq). rewrite Heq in *.
      simpl in *. split; [reflexivity |].
      split; [eexists; rewrite <- app_assoc; reflexivity |].
      exists kept, new. split; [reflexivity |].
      clear - Hk. unfold update_quantity in Hk.
      remember (map _ (inventory db)) as updated eqn:Hu.
      revert updated Hu kept Hk.
      induction (inventory db) as [|i l IHl]; intros updated Hu kept Hk; subst updated;
        simpl in Hk; inversion Hk; subst; constructor.
      * destruct (Inventory.id i =? k); [| assumption].
        eapply same_lot_trans; [| eassumption]. reflexivity.
      * eapply IHl; [reflexivity | assumption].
Qed.

Lemma lot_of_unique db lot :
  NoDup (map (@Inventory.id R) (inventory db)) ->
  In lot (inventory db) -> lot_of db (Inventory.id lot) = Some lot.
Proof.
  unfold lot_of, inventory_where_id, fetchone.
  induction (inventory db) as [|i l IH]; simpl; intros Hnd Hin; [destruct Hin |].
  inversion Hnd as [|? ? Hi Hl]; subst.
  destruct Hin as [-> | Hin].
  - rewrite Z.eqb_refl. reflexivity.
  - destruct (Z.eqb_spec (Inventory.id i) (Inventory.id lot)) as [Heq | _].
    + exfalso. apply Hi. rewrite Heq. apply in_map, Hin.
    + apply IH; assumption.
Qed.

(** X12. No sale takes a lot below zero: starting without lots and sales,
    if every lot is added with a quantity of 0 or more, then after any
    sequence of operations, whatever the quantities asked for in the sales,
    no lot holds less than 0. *)
Theorem stock_never_negative (catalog : list Medicines.row)
    (ops : list (Clock * operation)) lot :
  Forall (fun q => 0 <= q) (added_quantities ops) ->
  In lot (inventory (run (fresh catalog) ops)) ->
  0 <= Inventory.quantity lot.
Proof.
  intros Hadd Hin.
  assert (Hgen : forall db,
            NoDup (map (@Inventory.id R) (inventory db)) ->
            Forall (fun l => 0 <= Inventory.quantity l) (inventory db) ->
            NoDup (map (@Inventory.id R) (inventory (run db ops))) /\
            Forall (fun l => 0 <= Inventory.quantity l) (inventory (run db ops))).
  { clear Hin. induction ops as [|c ops IH]; intros db Hnd Hpos; [split; assumption |].
    simpl. unfold added_quantities in Hadd. simpl in Hadd.
    apply Forall_app in Hadd. destruct Hadd as [Hc Hrest].
    apply (IH Hrest); [apply step_ids_NoDup, Hnd |].
    destruct (step_cases db c) as [-> | [H | H]]; [exact Hpos | |].
    - destruct H as (m & q & e & pp & sp & expiry & _ & Hop & ->). simpl.
      apply Forall_app. split; [exact Hpos |]. constructor; [| constructor].
      simpl. rewrite Hop in Hc. inversion Hc. assumption.
    - destruct H as (k & q & n & sold_from & Hlot & Hq & ->). simpl.
      unfold update_quantity. apply Forall_map.
      rewrite Forall_forall in *. intros i Hi.
      destruct (Z.eqb_spec (Inventory.id i) k) as [Heq | _]; [| apply Hpos, Hi].
      simpl. pose proof (lot_of_unique db i Hnd Hi) as Hfound.
      rewrite Heq, Hlot in Hfound. injection Hfound as ->. lia. }
  destruct (Hgen (fresh catalog)) as [_ Hall]; [constructor | constructor |].
  rewrite Forall_forall in Hall. apply Hall, Hin.
Qed.

(** X13. Starting without lots, after any sequence of operations the expiry
    date of every lot is a day of the calendar, in a year from 1 to 9999:
    [add_to_inventory] stores no date such as a 30th of February. *)
Theorem expiry_dates_exist (catalog : list Medicines.row)
    (ops : list (Clock * operation)) lot :
  In lot (inventory (run (fresh catalog) ops)) ->
  exists y m d,
    Calendar.civil (Inventory.expiry_date lot) = (y, m, d) /\
    Calendar.valid_date y m d = true.
Proof.
  revert lot.
  apply (run_keeps
           (fun db => forall lot, In lot (inventory db) ->
              exists y m d,
                Calendar.civil (Inventory.expiry_date lot) = (y, m, d) /\
                Calendar.valid_date y m d = true));
    [| intros lot []].
  intros db c Hinv.
  destruct (step_cases db c) as [-> | [H | H]]; [exact Hinv | |].
  - destruct H as (m & q & e & pp & sp & expiry & Hparse & _ & ->). simpl.
    intros lot Hlot. apply in_app_or in Hlot. destruct Hlot as [Hlot | [<- | []]].
    + apply Hinv, Hlot.
    + simpl. apply (CalendarFacts.strptime_civil e). exact Hparse.
  - destruct H as (k & q & n & sold_from & _ & _ & ->). simpl.
    intros lot Hlot. unfold update_quantity in Hlot. apply in_map_iff in Hlot.
    destruct Hlot as (i & <- & Hi).
    destruct (Inventory.id i =? k); simpl; apply Hinv, Hi.
Qed.

End HistoryFacts.

(* ================================================================= *)
(** ** The queries together *)

Section AlertFacts.
Context {R : Type} {P : PriceOps R}.
Implicit Types (db : DB R) (clk : Clock).

(** X14. [days_remaining] counts whole days from the present instant, not
    from the start of today: on every row of [get_expiring_medicines] it is
    the number of days from today to the expiry date, less one when the day
    has begun and the lot expires after today.  At any time after midnight a
    lot that expires tomorrow has 0 days remaining, as has one that expires
    today. *)
Theorem days_remaining_counts_from_now clk db (days : option Z) (row : expiring_item) :
  0 <= ms_of_day clk < ms_per_day ->
  In row (get_expiring_medicines clk db days) ->
  days_remaining row =
    exp_expiry_date row - today clk -
    (if (0 <? ms_of_day clk) && (today clk <? exp_expiry_date row) then 1 else 0).
Proof.
  intros Hms Hin. apply in_get_expiring_medicines in Hin.
  destruct Hin as (i & m & _ & _ & _ & Hwin & ->). simpl.
  destruct (Z.ltb_spec 0 (ms_of_day clk)) as [Hpos | Hzero]; simpl.
  - destruct (Z.ltb_spec (today clk) (Inventory.expiry_date i)) as [Hlater | Htoday].
    + apply days_until_later; lia.
    + replace (Inventory.expiry_date i) with (today clk) by lia.
      rewrite days_until_today by exact Hms. lia.
  - rewrite days_until_midnight by lia. lia.
Qed.

(** X15. A sale that the daily report lists is listed, with the same line,
    by the weekly and by the monthly report; and the report asked for
    without a period is the daily one. *)
Theorem daily_report_within_the_others clk db (line : report_line R) :
  In line (get_sales_report clk db (Some "daily")) ->
  In line (get_sales_report clk db (Some "weekly")) /\
  In line (get_sales_report clk db (Some "monthly")) /\
  get_sales_report clk db None = get_sales_report clk db (Some "daily").
Proof.
  intros Hin.
  destruct (@get_sales_report_since R P clk db "daily" (today clk) eq_refl) as [Hday _].
  destruct (@get_sales_report_since R P clk db "weekly" (today clk - 7) eq_refl)
    as [Hweek _].
  destruct (@get_sales_report_since R P clk db "monthly"
              (Calendar.start_of_month (today clk)) eq_refl) as [Hmonth _].
  apply Hday in Hin. destruct Hin as (s & i & m & Hs & Hi & Hm & Hsi & Him & Hdate & ->).
  split; [| split; [| reflexivity]].
  - apply Hweek. exists s, i, m. repeat split; try assumption. lia.
  - apply Hmonth. exists s, i, m. repeat split; try assumption.
    pose proof (CalendarFacts.start_of_month_first (today clk)) as Hfirst.
    destruct (Calendar.civil (today clk)) as [[y mo] d].
    destruct Hfirst as (_ & -> & Hd). lia.
Qed.

(** X16. An item that [get_inventory] shows as NEAR_EXPIRY and that has not
    expired yet has its row in [get_expiring_medicines()], the alert for 30
    days; and an item that has expired is never shown as OK. *)
Theorem near_expiry_items_are_alerted clk db (low_stock_threshold : option Z)
    (item : inventory_item R) :
  In item (get_inventory clk db low_stock_threshold) ->
  (item_status item = NEAR_EXPIRY -> today clk <= item_expiry_date item ->
   exists row,
     In row (get_expiring_medicines clk db None) /\
     exp_name row = item_name item /\
     exp_quantity row = item_quantity item /\
     exp_expiry_date row = item_expiry_date item) /\
  (item_expiry_date item < today clk -> item_status item <> OK).
Proof.
  intros Hin. unfold get_inventory in Hin. apply in_map_iff in Hin.
  destruct Hin as ([i m] & <- & Hin).
  apply order_by_In, filter_In in Hin. destruct Hin as [Hjoin _].
  apply in_inventory_medicines in Hjoin. simpl. split.
  - intros Hnear Hnot. apply inventory_status_NEAR_EXPIRY in Hnear.
    exists (expiring_item_of clk i m). split; [| repeat split].
    apply in_get_expiring_medicines. exists i, m. simpl.
    repeat split; try tauto; lia.
  - intros Hexpired Hok. apply inventory_status_OK in Hok. lia.
Qed.

End AlertFacts.

(* ================================================================= *)
(** ** Sales one after another, and the lot that is sold out *)

Section SequenceFacts.
Context {R : Type} {P : PriceOps R}.
Implicit Types (db : DB R) (lot : Inventory.row R) (clk : Clock).

(** X17. After a sale of [q1] from a lot that holds [Q], a second sale of
    [q2] from the same lot goes through when [q2 <= Q - q1], and then leaves
    [Q - q1 - q2] and both sales on record, both sales being in range;
    when [q2 > Q - q1] it is refused for want of stock and changes nothing:
    two sales cannot take more than the lot held. *)
Theorem second_sale_sees_the_first {V : RealValue R} clk clk' db
    (inventory_id q1 q2 : Z) (name1 name2 : option string) lot :
  lot_of db inventory_id = Some lot ->
  q1 <= Inventory.quantity lot ->
  sale_in_range lot q1 = true ->
  let db1 := fst (sell_medicine clk db inventory_id q1 name1) in
  let result := sell_medicine clk' db1 inventory_id q2 name2 in
  (q2 <= Inventory.quantity lot - q1 ->
   sale_in_range (Inventory.set_quantity (Inventory.quantity lot - q1) lot) q2
     = true ->
   exists sale1 sale2 lot2,
     snd result = Returned (true, Sold q2 (with_default "" name2)
                                       (mul q2 (Inventory.selling_price lot))) /\
     sales (fst result) = sales db ++ [sale1; sale2] /\
     Sales.quantity sale1 = q1 /\ Sales.quantity sale2 = q2 /\
     lot_of (fst result) inventory_id = Some lot2 /\
     Inventory.quantity lot2 = Inventory.quantity lot - q1 - q2) /\
  (Inventory.quantity lot - q1 < q2 ->
   result = (db1, Returned (false, Not_enough_stock))).
Proof.
  intros Hlot Hq1 _ db1 result. subst result db1.
  rewrite sell_medicine_found with (db := db) (quantity := q1) (lot := lot)
    by exact Hlot.
  destruct (Z.ltb_spec (Inventory.quantity lot) q1) as [Hlt | _]; [lia |].
  simpl fst.
  pose proof (lot_of_after_sale db inventory_id q1
                (sale_record clk db inventory_id q1 name1 lot) Hlot) as Hlot1.
  rewrite sell_medicine_found
    with (lot := Inventory.set_quantity (Inventory.quantity lot - q1) lot)
    by exact Hlot1.
  simpl Inventory.quantity. simpl Inventory.selling_price.
  destruct (Z.ltb_spec (Inventory.quantity lot - q1) q2) as [Hlt | Hge].
  - split; [lia | reflexivity].
  - split; [| lia]. intros _ _. eexists _, _, _.
    split; [reflexivity |]. simpl fst.
    split; [simpl; rewrite <- app_assoc; reflexivity |].
    split; [reflexivity |]. split; [reflexivity |].
    split; [apply lot_of_after_sale, Hlot1 |]. reflexivity.
Qed.

(** X18. A lot that is sold out leaves [get_inventory] and stays in
    [get_expiring_medicines]: after the sale, in range, of all that a lot
    holds, no row of [get_inventory] has its id, while
    [get_expiring_medicines] lists it, with quantity 0, when it expires
    within the days asked for, its medicine is in the catalog and today
    plus those days is no later than 9999-12-31. *)
Theorem sold_out_lot_is_still_alerted {V : RealValue R} clk clk' db
    (inventory_id : Z)
    (customer_name : option string) lot (m : Medicines.row)
    (low_stock_threshold days : option Z) :
  NoDup (map (@Inventory.id R) (inventory db)) ->
  lot_of db inventory_id = Some lot ->
  sale_in_range lot (Inventory.quantity lot) = true ->
  let db' := fst (sell_medicine clk db inventory_id (Inventory.quantity lot)
                                customer_name) in
  (forall item, In item (get_inventory clk' db' low_stock_threshold) ->
                item_id item <> inventory_id) /\
  (In m (medicines db) -> Inventory.medicine_id lot = Medicines.id m ->
   Calendar.first_day <= today clk' ->
   today clk' + with_default 30 days <= Calendar.last_day ->
   today clk' <= Inventory.expiry_date lot <= today clk' + with_default 30 days ->
   exists row,
     In row (get_expiring_medicines clk' db' days) /\
     exp_lot row = (Medicines.name m, 0, Inventory.expiry_date lot)).
Proof.
  intros Hnd Hlot _ db'. subst db'.
  rewrite sell_medicine_found with (lot := lot) by exact Hlot.
  rewrite Z.ltb_irrefl. simpl fst. split.
  - intros item Hin Hid. unfold get_inventory in Hin. apply in_map_iff in Hin.
    destruct Hin as ([i' m'] & <- & Hin).
    apply order_by_In, filter_In in Hin. destruct Hin as [Hjoin Hpos].
    apply in_inventory_medicines in Hjoin. destruct Hjoin as [Hi' _].
    apply Z.ltb_lt in Hpos. simpl in Hi', Hid. unfold update_quantity in Hi'.
    apply in_map_iff in Hi'. destruct Hi' as (i & <- & Hi).
    destruct (Z.eqb_spec (Inventory.id i) inventory_id) as [Heq | Hne].
    + pose proof (lot_of_unique db i Hnd Hi) as Hfound.
      rewrite Heq, Hlot in Hfound. injection Hfound as ->. simpl in Hpos. lia.
    + apply Hne. exact Hid.
  - intros Hm Hmed _ _ Hwin.
    destruct (lot_of_In _ _ Hlot) as [Hin Hid].
    exists (expiring_item_of clk'
              (Inventory.set_quantity (Inventory.quantity lot - Inventory.quantity lot) lot) m).
    split.
    + apply in_get_expiring_medicines. eexists _, m.
      split; [| split; [exact Hm | split; [| split; [| reflexivity]]]].
      * simpl. unfold update_quantity.
        apply in_map_iff. exists lot. split; [| exact Hin].
        rewrite Hid, Z.eqb_refl. reflexivity.
      * exact Hmed.
      * exact Hwin.
    + unfold exp_lot. simpl. rewrite Z.sub_diag. reflexivity.
Qed.

End SequenceFacts.

(* ================================================================= *)
(** ** Operations in range keep the tables in range *)

Section RangeFacts.
Context {R : Type} {P : PriceOps R} {V : RealValue R}.
Implicit Types (db : DB R) (lot : Inventory.row R).

Lemma int64b_int64 (n : Z) : int64b n = true <-> int64 n.
Proof. unfold int64b, int64. rewrite andb_true_iff, !Z.leb_le. reflexivity. Qed.

(** Where the operation is in range, the quantity it stores in a lot and
    the quantity of the sale it records are 64-bit integers: on such
    operations no subtraction of [sell_medicine] overflows. *)
Lemma step_in_range_int64 db (c : Clock * operation) :
  NoDup (map (@Inventory.id R) (inventory db)) ->
  Forall (fun i => int64 (Inventory.quantity i)) (inventory db) ->
  Forall (fun s => int64 (Sales.quantity s)) (sales db) ->
  step_in_range db c = true ->
  Forall (fun i => int64 (Inventory.quantity i)) (inventory (step db c)) /\
  Forall (fun s => int64 (Sales.quantity s)) (sales (step db c)).
Proof.
  intros Hnd Hlots Hsales.
  destruct c as [clk [m q e pp sp | k q n]]; unfold step, step_in_range; simpl.
  - destruct (Strptime.strptime e) as [expiry|] eqn:He.
    + rewrite add_to_inventory_parsed with (expiry := expiry) by exact He.
      unfold lot_in_range. rewrite !andb_true_iff.
      intros (_ & ((_ & Hq) & _) & _). apply int64b_int64 in Hq. simpl.
      split; [| exact Hsales].
      apply Forall_app. split; [exact Hlots |]. constructor; [exact Hq | constructor].
    + rewrite add_to_inventory_malformed by exact He. intros _. simpl. auto.
  - destruct (lot_of db k) as [lot|] eqn:Hlot.
    + rewrite sell_medicine_found with (lot := lot) by exact Hlot.
      destruct (Z.ltb_spec (Inventory.quantity lot) q) as [Hlt | Hge];
        [intros _; simpl; auto |].
      unfold sale_in_range. simpl orb. rewrite !andb_true_iff.
      intros (_ & (Hq & Hleft) & _).
      apply int64b_int64 in Hq. apply int64b_int64 in Hleft. simpl. split.
      * unfold update_quantity. apply Forall_forall. intros i' Hi'.
        apply in_map_iff in Hi'. destruct Hi' as (i & <- & Hi).
        destruct (Z.eqb_spec (Inventory.id i) k) as [Heq | _].
        -- pose proof (lot_of_unique db i Hnd Hi) as Hfound.
           rewrite Heq, Hlot in Hfound. injection Hfound as ->. exact Hleft.
        -- rewrite Forall_forall in Hlots. apply Hlots, Hi.
      * apply Forall_app. split; [exact Hsales |].
        constructor; [exact Hq | constructor].
    + rewrite sell_medicine_missing by exact Hlot. intros _. simpl. auto.
Qed.

Lemma run_in_range_int64 (ops : list (Clock * operation)) : forall db,
  NoDup (map (@Inventory.id R) (inventory db)) ->
  Forall (fun i => int64 (Inventory.quantity i)) (inventory db) ->
  Forall (fun s => int64 (Sales.quantity s)) (sales db) ->
  run_in_range db ops = true ->
  Forall (fun i => int64 (Inventory.quantity i)) (inventory (run db ops)) /\
  Forall (fun s => int64 (Sales.quantity s)) (sales (run db ops)).
Proof.
  induction ops as [|c ops IH]; intros db Hnd Hlots Hsales Hrange; simpl in *.
  - auto.
  - apply andb_true_iff in Hrange. destruct Hrange as [Hc Hrest].
    destruct (step_in_range_int64 db c Hnd Hlots Hsales Hc) as [Hlots' Hsales'].
    apply IH; [apply step_ids_NoDup, Hnd | exact Hlots' | exact Hsales' | exact Hrest].
Qed.

End RangeFacts.

(* ================================================================= *)
(** ** The further properties at work *)

(** X2: "para" is found in "Paracetamol". *)
Lemma search_medicine_finds_substring_witness :
  Like.literal "para" = true /\
  Like.no_nul "para" = true /\
  Z.of_nat (String.length "para") + 2 <= Like.max_pattern_length /\
  Like.no_nul (Medicines.name paracetamol) = true /\
  (In paracetamol (search_medicine stocked "para") <->
   In paracetamol (medicines stocked) /\ occurs_in "para" "Paracetamol").
Proof.
  assert (Hlen : Z.of_nat (String.length "para") + 2 <= Like.max_pattern_length)
    by (vm_compute; discriminate).
  split; [reflexivity |]. split; [reflexivity |]. split; [exact Hlen |].
  split; [reflexivity |].
  apply (@search_medicine_finds_substring Q stocked "para" paracetamol).
  - reflexivity.
  - reflexivity.
  - exact Hlen.
  - reflexivity.
Defined.

Example search_examples :
  map Medicines.name (search_medicine stocked "CETA") = ["Paracetamol"] /\
  map Medicines.name (search_medicine stocked "p_r") = ["Paracetamol"] /\
  map Medicines.name (search_medicine stocked "xyz") = [].
Proof. vm_compute. repeat split. Qed.

(** X3: the tables of main.py gain the three columns, after their own. *)
Lemma create_tables_migrates_witness :
  let s' := {| Schema.medicines_table := Some Schema.medicines_columns;
               Schema.inventory_table := Some Schema.inventory_columns;
               Schema.sales_table :=
                 Some ["id"; "inventory_id"; "quantity"; "sale_price"; "sale_date";
                       "customer_name"; "sale_time"; "total_amount"] |} in
  Schema.create_tables Schema.of_main_py = (s', true) /\
  Schema.create_tables Schema.absent =
    ({| Schema.medicines_table := Some Schema.medicines_columns;
        Schema.inventory_table := Some Schema.inventory_columns;
        Schema.sales_table := Some sales_columns |}, true) /\
  Schema.create_tables s' = (s', true).
Proof.
  intros s'. split; [reflexivity |]. split; [reflexivity |].
  apply (@SchemaFacts.create_tables_migrates Schema.of_main_py s' eq_refl).
Defined.

(** X4: the two records of the same name, into an empty catalog. *)
Lemma load_fills_empty_catalog_witness :
  medicines (empty_db Q) = [] /\
  (forall med, In med same_name_twice -> dict_lookup "name" med <> None) /\
  exists db',
    load_medicine_data (Some same_name_twice) (empty_db Q) = (db', Returned tt) /\
    map Medicines.name (medicines db') = record_names same_name_twice /\
    map Medicines.id (medicines db') = first_ids (List.length (medicines db')) /\
    inventory db' = inventory (empty_db Q) /\ sales db' = sales (empty_db Q) /\
    (record_names same_name_twice <> [] ->
     forall again, load_medicine_data again db' = (db', Returned tt)).
Proof.
  assert (Hkeys : forall med, In med same_name_twice -> dict_lookup "name" med <> None).
  { intros med [<- | [<- | []]]; discriminate. }
  split; [reflexivity |]. split; [exact Hkeys |].
  apply (proj1 (@load_fills_empty_catalog Q (empty_db Q) same_name_twice eq_refl)).
  exact Hkeys.
Defined.

(** X5: the same two records, loaded by main.py at two starts. *)
Lemma main_load_appends_witness :
  (forall med, In med same_name_twice -> dict_lookup "name" med <> None) /\
  exists added added',
    map Medicines.name added = record_names same_name_twice /\
    map Medicines.name added' = record_names same_name_twice /\
    MainPy.load_medicine_data (Some same_name_twice) old_stocked =
      ({| MainPy.medicines := MainPy.medicines old_stocked ++ added;
          MainPy.inventory := MainPy.inventory old_stocked;
          MainPy.sales := MainPy.sales old_stocked |}, Returned tt) /\
    MainPy.medicines
      (fst (MainPy.load_medicine_data (Some same_name_twice)
              (fst (MainPy.load_medicine_data (Some same_name_twice) old_stocked)))) =
      MainPy.medicines old_stocked ++ added ++ added'.
Proof.
  assert (Hkeys : forall med, In med same_name_twice -> dict_lookup "name" med <> None).
  { intros med [<- | [<- | []]]; discriminate. }
  split; [exact Hkeys |].
  apply (@main_load_appends Q old_stocked same_name_twice Hkeys).
Defined.

(** A record without a name between two that have one: the first is
    inserted, the call raises at the second, the third is not read. *)
Example load_stops_at_missing_name :
  let records := [[("name", Some "Aspirin")]; [("company", Some "Acme")];
                  [("name", Some "Zinc")]] in
  map Medicines.name
      (medicines (fst (load_medicine_data (Some records) (empty_db Q)))) =
    ["Aspirin"] /\
  snd (load_medicine_data (Some records) (empty_db Q)) = Raised KeyError.
Proof. vm_compute. split; reflexivity. Qed.

Example main_load_twice :
  map Medicines.name
    (MainPy.medicines
       (fst (MainPy.load_medicine_data (Some same_name_twice)
               (fst (MainPy.load_medicine_data (Some same_name_twice) old_stocked))))) =
    ["Paracetamol"; "Paracetamol"; "Paracetamol"; "Paracetamol"; "Paracetamol"].
Proof. vm_compute. reflexivity. Qed.

(** X6: on the lot of 100. *)
Lemma get_inventory_sorts_main_witness :
  MainPy.medicines old_stocked = medicines stocked /\
  MainPy.inventory old_stocked = inventory stocked /\
  get_inventory noon stocked None =
  order_by (fun a b => item_expiry_date a <=? item_expiry_date b)
           (MainPy.get_inventory noon old_stocked None).
Proof.
  split; [reflexivity |]. split; [reflexivity |].
  apply (@get_inventory_sorts_main Q noon stocked old_stocked None); reflexivity.
Defined.

(** X7: lot 7 does not exist; lot 1 holds 100. *)
Lemma main_sell_medicine_differs_on_missing_lot_witness :
  MainPy.inventory old_stocked = inventory stocked /\
  int64 7 /\
  lot_of stocked 7 = None /\
  MainPy.sell_medicine noon old_stocked 7 1 = (old_stocked, Raised TypeError) /\
  sell_medicine noon stocked 7 1 None =
    (stocked, Returned (false, Inventory_item_not_found)).
Proof.
  assert (Hid : int64 7) by (unfold int64; lia).
  split; [reflexivity |]. split; [exact Hid |]. split; [reflexivity |].
  apply (proj1 (@main_sell_medicine_differs_on_missing_lot Q rational_prices
                  rational_values noon stocked old_stocked 7 1 None eq_refl)).
  - exact Hid.
  - reflexivity.
Defined.

(** X8: a second lot for the pharmacy that has one. *)
Lemma added_lot_is_found_witness :
  Strptime.strptime "2099-01-01" = Some 47117 /\
  lot_in_range 1 40 (2 # 1)%Q (6 # 1)%Q = true /\
  exists lot_id db',
    add_to_inventory noon stocked 1 40 "2099-01-01" (2 # 1)%Q (6 # 1)%Q =
      (db', Returned lot_id) /\
    lot_of db' lot_id =
      Some (Inventory.mk lot_id 1 40 47117 (2 # 1)%Q (6 # 1)%Q (today noon)) /\
    (forall j, j <> lot_id -> lot_of db' j = lot_of stocked j) /\
    (forall clk' q customer_name,
        q <= 40 ->
        sale_in_range (Inventory.mk lot_id 1 40 47117 (2 # 1)%Q (6 # 1)%Q
                                    (today noon)) q = true ->
        snd (sell_medicine clk' db' lot_id q customer_name) =
          Returned (true, Sold q (with_default "" customer_name) (mul q (6 # 1)%Q))).
Proof.
  split; [reflexivity |]. split; [reflexivity |].
  apply (@added_lot_is_found Q rational_prices rational_values noon stocked
           1 40 "2099-01-01" (2 # 1)%Q (6 # 1)%Q 47117).
  - reflexivity.
  - reflexivity.
Defined.

(** X10: the sale of the scenario. *)
Lemma sales_match_their_lot_witness :
  let s := Sales.mk 1 1 30 (5 # 1)%Q "Alice" 20000 "12:00:00" (150 # 1)%Q in
  In s (sales (run (fresh [paracetamol]) scenario_ops)) /\
  exists lot,
    In lot (inventory (run (fresh [paracetamol]) scenario_ops)) /\
    Inventory.id lot = Sales.inventory_id s /\
    Sales.sale_price s = Inventory.selling_price lot /\
    Sales.total_amount s = mul (Sales.quantity s) (Sales.sale_price s).
Proof.
  intros s. split; [left; reflexivity |].
  apply (@sales_match_their_lot Q rational_prices [paracetamol] scenario_ops s).
  left; reflexivity.
Defined.

(** X12, X13: the lot of the scenario, 70 left, expiring on 2099-01-01. *)
Lemma stock_never_negative_witness :
  let lot := Inventory.mk 1 1 70 47117 (2 # 1)%Q (5 # 1)%Q 20000 in
  Forall (fun q => 0 <= q) (added_quantities scenario_ops) /\
  In lot (inventory (run (fresh [paracetamol]) scenario_ops)) /\
  0 <= Inventory.quantity lot.
Proof.
  intros lot.
  assert (Hadd : Forall (fun q => 0 <= q) (added_quantities scenario_ops)).
  { repeat constructor. simpl. lia. }
  assert (Hin : In lot (inventory (run (fresh [paracetamol]) scenario_ops))).
  { left; reflexivity. }
  split; [exact Hadd |]. split; [exact Hin |].
  exact (@stock_never_negative Q rational_prices [paracetamol] scenario_ops lot Hadd Hin).
Defined.

Lemma expiry_dates_exist_witness :
  let lot := Inventory.mk 1 1 70 47117 (2 # 1)%Q (5 # 1)%Q 20000 in
  In lot (inventory (run (fresh [paracetamol]) scenario_ops)) /\
  exists y m d,
    Calendar.civil (Inventory.expiry_date lot) = (y, m, d) /\
    Calendar.valid_date y m d = true.
Proof.
  intros lot. split; [left; reflexivity |].
  apply (@expiry_dates_exist Q rational_prices [paracetamol] scenario_ops lot).
  left; reflexivity.
Defined.

(** X14: at noon, the lot that expires in 5 days has 4 days remaining. *)
Lemma days_remaining_counts_from_now_witness :
  let row := {| exp_name := "Paracetamol"; exp_quantity := 50;
                exp_expiry_date := 20005; days_remaining := 4 |} in
  0 <= ms_of_day noon < ms_per_day /\
  In row (get_expiring_medicines noon expiring_soon None) /\
  days_remaining row =
    exp_expiry_date row - today noon -
    (if (0 <? ms_of_day noon) && (today noon <? exp_expiry_date row) then 1 else 0).
Proof.
  intros row.
  assert (Hms : 0 <= ms_of_day noon < ms_per_day) by (unfold ms_per_day; simpl; lia).
  assert (Hin : In row (get_expiring_medicines noon expiring_soon None))
    by (left; reflexivity).
  split; [exact Hms |]. split; [exact Hin |].
  exact (@days_remaining_counts_from_now Q noon expiring_soon None row Hms Hin).
Defined.

(** X15: the sale to Alice, made today. *)
Lemma daily_report_within_the_others_witness :
  let line := {| line_sale_date := 20000; line_sale_time := "12:00:00";
                 line_name := "Paracetamol"; line_customer_name := "Alice";
                 line_quantity := 30; line_total_amount := (150 # 1)%Q;
                 line_profit := (90 # 1)%Q |} in
  In line (get_sales_report noon sold_once (Some "daily")) /\
  In line (get_sales_report noon sold_once (Some "weekly")) /\
  In line (get_sales_report noon sold_once (Some "monthly")) /\
  get_sales_report noon sold_once None = get_sales_report noon sold_once (Some "daily").
Proof.
  intros line.
  assert (Hin : In line (get_sales_report noon sold_once (Some "daily")))
    by (left; reflexivity).
  split; [exact Hin |].
  exact (@daily_report_within_the_others Q rational_prices noon sold_once line Hin).
Defined.

(** X16: the lot of 50 that expires in 5 days. *)
Lemma near_expiry_items_are_alerted_witness :
  let item := {| item_id := 1; item_name := "Paracetamol"; item_quantity := 50;
                 item_expiry_date := 20005; item_purchase_price := (2 # 1)%Q;
                 item_selling_price := (5 # 1)%Q; item_status := NEAR_EXPIRY |} in
  In item (get_inventory noon expiring_soon None) /\
  today noon <= item_expiry_date item /\
  exists row,
    In row (get_expiring_medicines noon expiring_soon None) /\
    exp_name row = item_name item /\
    exp_quantity row = item_quantity item /\
    exp_expiry_date row = item_expiry_date item.
Proof.
  intros item.
  assert (Hin : In item (get_inventory noon expiring_soon None)) by (left; reflexivity).
  split; [exact Hin |]. split; [simpl; lia |].
  apply (proj1 (@near_expiry_items_are_alerted Q noon expiring_soon None item Hin)).
  - reflexivity.
  - simpl. lia.
Defined.

(** X17: 30 then 80, and 30 then 70, from the lot of 100. *)
Lemma second_sale_sees_the_first_witness :
  let lot := Inventory.mk 1 1 100 47117 (2 # 1)%Q (5 # 1)%Q 20000 in
  lot_of stocked 1 = Some lot /\ 30 <= Inventory.quantity lot /\
  sale_in_range lot 30 = true /\
  sale_in_range (Inventory.set_quantity (Inventory.quantity lot - 30) lot) 70
    = true /\
  sell_medicine noon sold_once 1 80 None = (sold_once, Returned (false, Not_enough_stock)) /\
  exists sale1 sale2 lot2,
    snd (sell_medicine noon sold_once 1 70 None) =
      Returned (true, Sold 70 "" (mul 70 (5 # 1)%Q)) /\
    sales (fst (sell_medicine noon sold_once 1 70 None)) =
      sales stocked ++ [sale1; sale2] /\
    Sales.quantity sale1 = 30 /\ Sales.quantity sale2 = 70 /\
    lot_of (fst (sell_medicine noon sold_once 1 70 None)) 1 = Some lot2 /\
    Inventory.quantity lot2 = 100 - 30 - 70.
Proof.
  intros lot.
  assert (Hlot : lot_of stocked 1 = Some lot) by reflexivity.
  assert (Hq : 30 <= Inventory.quantity lot) by (simpl; lia).
  assert (Hr : sale_in_range lot 30 = true) by reflexivity.
  split; [exact Hlot |]. split; [exact Hq |]. split; [exact Hr |].
  split; [reflexivity |]. split.
  - apply (proj2 (@second_sale_sees_the_first Q rational_prices rational_values
                    noon noon stocked 1 30 80 (Some "Alice") None lot Hlot Hq Hr)).
    simpl. lia.
  - apply (proj1 (@second_sale_sees_the_first Q rational_prices rational_values
                    noon noon stocked 1 30 70 (Some "Alice") None lot Hlot Hq Hr)).
    + simpl. lia.
    + reflexivity.
Defined.

(** X18: the lot of 50 that expires in 5 days, sold out. *)
Lemma sold_out_lot_is_still_alerted_witness :
  let lot := Inventory.mk 1 1 50 20005 (2 # 1)%Q (5 # 1)%Q 20000 in
  let db' := fst (sell_medicine noon expiring_soon 1 50 None) in
  NoDup (map (@Inventory.id Q) (inventory expiring_soon)) /\
  lot_of expiring_soon 1 = Some lot /\
  sale_in_range lot 50 = true /\
  Calendar.first_day <= today noon /\
  today noon + 30 <= Calendar.last_day /\
  (forall item, In item (get_inventory noon db' None) -> item_id item <> 1) /\
  exists row,
    In row (get_expiring_medicines noon db' None) /\
    exp_lot row = ("Paracetamol", 0, 20005).
Proof.
  intros lot db'.
  assert (Hnd : NoDup (map (@Inventory.id Q) (inventory expiring_soon)))
    by (repeat constructor; intros []).
  assert (Hlot : lot_of expiring_soon 1 = Some lot) by reflexivity.
  assert (Hr : sale_in_range lot (Inventory.quantity lot) = true) by reflexivity.
  assert (H1 : Calendar.first_day <= today noon) by (vm_compute; discriminate).
  assert (H2 : today noon + 30 <= Calendar.last_day) by (vm_compute; discriminate).
  split; [exact Hnd |]. split; [exact Hlot |]. split; [exact Hr |].
  split; [exact H1 |]. split; [exact H2 |].
  pose proof (@sold_out_lot_is_still_alerted Q rational_prices rational_values
                noon noon expiring_soon
                1 None lot paracetamol None None Hnd Hlot Hr) as [Hgone Hkept].
  split; [exact Hgone |].
  apply Hkept; [left; reflexivity | reflexivity | exact H1 | exact H2 | simpl; lia].
Defined.
